(** * The ATCF record decoder of [stormevents/nhc/atcf.py]

    A shallow embedding of [normalize_atcf_value], [read_atcf] and
    [read_atcf_line], and the properties of the decoder stated over it;
    then of [atcf_url], [get_atcf_entry], [get_atcf_file] and
    [atcf_storm_ids], which find the decks on the server.

    Text is a [string] whose characters are code points below 256; the
    ATCF decks themselves are plain ASCII.  A Python exception is a value
    of [exn], and a computation that may raise returns a [result]. *)

From Stdlib Require Import ZArith List String Ascii Bool Lia.
From Stdlib Require Import PrimFloat SpecFloat FloatOps.
From Stdlib Require Import DecimalString Sorted Permutation.
Import ListNotations.

Set Warnings "-inexact-float".

Local Open Scope string_scope.
Local Open Scope Z_scope.

(** ** Exceptions and the error monad *)

(** The payload of a [ValueError]: the two that [read_atcf] raises itself
    carry their own constructor, every other one (a builtin's or a
    library's, [ParserError] and [UnicodeDecodeError] included, which are
    subclasses of [ValueError]) keeps a description. *)
Inductive value_error :=
| empty_file
| no_records_found
| invalid_value (what : string).

Inductive exn :=
| IndexError
| TypeError
| OverflowError
| ValueError (why : value_error)
| FileNotFoundError
| OtherError (class_name : string)
| Exception (message : string).

Inductive result (A : Type) :=
| Ok (a : A)
| Err (e : exn).

Arguments Ok {A} a.
Arguments Err {A} e.

Definition bind {A B} (m : result A) (k : A -> result B) : result B :=
  match m with
  | Ok a => k a
  | Err e => Err e
  end.

Notation "x <- m ;; k" := (bind m (fun x => k))
  (at level 61, m at next level, right associativity).
Notation "' pat <- m ;; k" := (bind m (fun x => let 'pat := x in k))
  (at level 61, pat pattern, m at next level, right associativity).

(** [try: m  except ValueError: raise e']. *)
Definition except_ValueError {A} (m : result A) (e' : exn) : result A :=
  match m with
  | Err (ValueError _) => Err e'
  | other => other
  end.

Fixpoint mapM {A B} (f : A -> result B) (l : list A) : result (list B) :=
  match l with
  | [] => Ok []
  | a :: l' => b <- f a ;; bs <- mapM f l' ;; Ok (b :: bs)
  end.

(** ** The Python builtins the decoder uses *)

Module Py.

(** *** Strings *)

Definition code (c : ascii) : N := N_of_ascii c.

(** [str.isspace] on one character: the white space [str.strip] removes. *)
Definition is_space (c : ascii) : bool :=
  let n := code c in
  (((9 <=? n) && (n <=? 13)) || ((28 <=? n) && (n <=? 32))
   || (n =? 133) || (n =? 160))%N.

Definition is_digit (c : ascii) : bool :=
  let n := code c in ((48 <=? n) && (n <=? 57))%N.

Definition digit_value (c : ascii) : Z := Z.of_N (code c) - 48.

Fixpoint lstrip_by (p : ascii -> bool) (s : string) : string :=
  match s with
  | String c s' => if p c then lstrip_by p s' else s
  | EmptyString => EmptyString
  end.

Fixpoint rstrip_by (p : ascii -> bool) (s : string) : string :=
  match s with
  | String c s' =>
      match rstrip_by p s' with
      | EmptyString => if p c then EmptyString else String c EmptyString
      | kept => String c kept
      end
  | EmptyString => EmptyString
  end.

Definition strip_by (p : ascii -> bool) (s : string) : string :=
  rstrip_by p (lstrip_by p s).

(** [s.strip()] *)
Definition strip (s : string) : string := strip_by is_space s.

(** [s.strip(c)] for a one-character argument, as in [strip('N')]. *)
Definition strip_char (c : ascii) (s : string) : string :=
  strip_by (Ascii.eqb c) s.

(** [c in s] for a one-character [c]. *)
Fixpoint contains (c : ascii) (s : string) : bool :=
  match s with
  | String d s' => Ascii.eqb c d || contains c s'
  | EmptyString => false
  end.

(** [s.split(sep)] for a one-character separator: never the empty list. *)
Fixpoint split (sep : ascii) (s : string) : list string :=
  match s with
  | EmptyString => [EmptyString]
  | String c s' =>
      if Ascii.eqb c sep then EmptyString :: split sep s'
      else match split sep s' with
           | w :: ws => String c w :: ws
           | [] => [String c EmptyString]
           end
  end.

(** [s.replace(r'\n', '')]: every backslash followed by the letter n goes,
    scanning from the left. *)
Fixpoint remove_backslash_n (s : string) : string :=
  match s with
  | EmptyString => EmptyString
  | String c s' =>
      match s' with
      | String d s'' =>
          if Ascii.eqb c "\" && Ascii.eqb d "n" then remove_backslash_n s''
          else String c (remove_backslash_n s')
      | EmptyString => String c EmptyString
      end
  end.

(** The characters [str.splitlines] breaks a line at, a carriage return
    apart: line feed, vertical tab, form feed, the file, group and record
    separators and the next-line control. *)
Definition is_line_break (c : ascii) : bool :=
  let n := code c in
  ((n =? 10) || (n =? 11) || (n =? 12) || (n =? 28) || (n =? 29) || (n =? 30)
   || (n =? 133))%N.

(** [s.splitlines()]; [after_cr] says that the character before was a
    carriage return, whose line a following line feed does not end again. *)
Fixpoint splitlines_from (after_cr : bool) (s : string) : list string :=
  match s with
  | EmptyString => []
  | String c s' =>
      if after_cr && (code c =? 10)%N then splitlines_from false s'
      else if (code c =? 13)%N then EmptyString :: splitlines_from true s'
      else if is_line_break c then EmptyString :: splitlines_from false s'
      else match splitlines_from false s' with
           | l :: ls => String c l :: ls
           | [] => [String c EmptyString]
           end
  end.

Definition splitlines (s : string) : list string := splitlines_from false s.

(** [lst[i]] for [i >= 0]. *)
Definition item {A} (l : list A) (i : nat) : result A :=
  match nth_error l i with
  | Some a => Ok a
  | None => Err IndexError
  end.

(** *** [int(str)]

    White space around, an optional sign, decimal digits with single
    underscores between them, and no more than 4300 digits. *)

(** The white space that [int] and [float] skip around a literal: the
    white space of ASCII as C knows it, which the separators from 28 to 31
    are not part of, and the white space beyond ASCII. *)
Definition is_literal_space (c : ascii) : bool :=
  let n := code c in
  (((9 <=? n) && (n <=? 13)) || (n =? 32) || (n =? 133) || (n =? 160))%N.

Definition int_max_str_digits : nat := 4300.

(** The digits at the beginning of [s], in which one underscore may stand
    between two digits: the number they write, how many they are, and what
    follows them.  [after_digit] says that the character before was a
    digit; the digits may not be none, nor end in an underscore. *)
Fixpoint int_digits (s : string) (acc : Z) (count : nat) (after_digit : bool)
  : option (Z * nat * string) :=
  match s with
  | EmptyString => if after_digit then Some (acc, count, s) else None
  | String c s' =>
      if is_digit c then int_digits s' (10 * acc + digit_value c) (S count) true
      else if Ascii.eqb c "_" then
        (if after_digit then int_digits s' acc count false else None)
      else if after_digit then Some (acc, count, s)
      else None
  end.

Definition invalid_literal : exn :=
  ValueError (invalid_value "invalid literal for int() with base 10").

Definition int (s : string) : result Z :=
  let literal := strip_by is_literal_space s in
  let signed :=
    match literal with
    | String c s' =>
        if Ascii.eqb c "-" then (true, s')
        else if Ascii.eqb c "+" then (false, s')
        else (false, literal)
    | EmptyString => (false, literal)
    end in
  match int_digits (snd signed) 0 0 false with
  | Some (n, count, rest) =>
      if (int_max_str_digits <? count)%nat then
        Err (ValueError
               (invalid_value
                  "Exceeds the limit (4300 digits) for integer string conversion"))
      else
        match rest with
        | EmptyString => Ok (if fst signed then - n else n)
        | String _ _ => Err invalid_literal
        end
  | None => Err invalid_literal
  end.

(** *** Floating point *)

(** The conversion of an integer to the nearest binary64 number, the tie
    going to the even one. *)
Definition Z2float (z : Z) : float := SF2Prim (binary_normalize prec emax z 0 false).

(** A string of decimal digits and the number it writes. *)
Fixpoint all_digits (s : string) : bool :=
  match s with
  | String c s' => is_digit c && all_digits s'
  | EmptyString => true
  end.

Fixpoint decimal_from (acc : Z) (s : string) : Z :=
  match s with
  | String c s' => decimal_from (10 * acc + digit_value c) s'
  | EmptyString => acc
  end.

Definition decimal (s : string) : Z := decimal_from 0 s.

(** *** [datetime] and [timedelta(hours=h)] *)

Record datetime := {
  year : Z; month : Z; day : Z;
  hour : Z; minute : Z; second : Z; microsecond : Z
}.

Definition is_leap (y : Z) : bool :=
  (y mod 4 =? 0) && (negb (y mod 100 =? 0) || (y mod 400 =? 0)).

Definition days_before_year (y : Z) : Z :=
  let y1 := y - 1 in y1 * 365 + y1 / 4 - y1 / 100 + y1 / 400.

Definition days_in_month (y m : Z) : Z :=
  if m =? 2 then (if is_leap y then 29 else 28)
  else if (m =? 4) || (m =? 6) || (m =? 9) || (m =? 11) then 30
  else 31.

(** [_DAYS_BEFORE_MONTH[m]] of a year that is not a leap year. *)
Definition DAYS_BEFORE_MONTH (m : Z) : Z :=
  nth (Z.to_nat m) [0; 0; 31; 59; 90; 120; 151; 181; 212; 243; 273; 304; 334] 0.

Definition days_before_month (y m : Z) : Z :=
  DAYS_BEFORE_MONTH m + (if (2 <? m) && is_leap y then 1 else 0).

(** [date.toordinal]: 1 is the first of January of year 1. *)
Definition ymd2ord (y m d : Z) : Z :=
  days_before_year y + days_before_month y m + d.

(** [date.fromordinal] *)
Definition ord2ymd (n : Z) : Z * Z * Z :=
  let n := n - 1 in
  let n400 := n / 146097 in
  let n := n mod 146097 in
  let n100 := n / 36524 in
  let n := n mod 36524 in
  let n4 := n / 1461 in
  let n := n mod 1461 in
  let n1 := n / 365 in
  let n := n mod 365 in
  let y := n400 * 400 + 1 + n100 * 100 + n4 * 4 + n1 in
  if (n1 =? 4) || (n100 =? 4) then (y - 1, 12, 31)
  else
    let leapyear := (n1 =? 3) && (negb (n4 =? 24) || (n100 =? 3)) in
    let m := Z.shiftr (n + 50) 5 in
    let preceding := DAYS_BEFORE_MONTH m + (if (2 <? m) && leapyear then 1 else 0) in
    if n <? preceding then
      let m' := m - 1 in
      let preceding' :=
        preceding - (nth (Z.to_nat m') [0; 31; 28; 31; 30; 31; 30; 31; 31; 30; 31; 30; 31] 0
                     + (if (m' =? 2) && leapyear then 1 else 0)) in
      (y, m', n - preceding' + 1)
    else (y, m, n - preceding + 1).

Definition MAXORDINAL : Z := 3652059.

(** [d + timedelta(hours=h)]: the date and the hour move, the rest stays;
    outside the years 1 to 9999 it is an [OverflowError]. *)
Definition add_hours (d : datetime) (h : Z) : result datetime :=
  let hours := ymd2ord (year d) (month d) (day d) * 24 + hour d + h in
  let days := hours / 24 in
  if (0 <? days) && (days <=? MAXORDINAL) then
    let '(y, m, dd) := ord2ymd days in
    Ok {| year := y; month := m; day := dd; hour := hours mod 24;
          minute := minute d; second := second d; microsecond := microsecond d |}
  else Err OverflowError.

End Py.

(** ** Values *)

Inductive ATCF_RecordType := best | ofcl | ofcp | hmon | carq | hwrf.

(** The value of an enumeration member. *)
Definition ATCF_RecordType_value (t : ATCF_RecordType) : string :=
  match t with
  | best => "BEST" | ofcl => "OFCL" | ofcp => "OFCP"
  | hmon => "HMON" | carq => "CARQ" | hwrf => "HWRF"
  end.

(** What a cell of a record may hold.  [numpy.nan] is [VFloat nan]. *)
Inductive scalar :=
| VNone
| VStr (s : string)
| VInt (n : Z)
| VFloat (x : float)
| VRecordType (t : ATCF_RecordType).

(** An argument of [normalize_atcf_value]: a bare value, or an object whose
    class is named [Quantity], with its [magnitude]. *)
Inductive any :=
| Plain (v : scalar)
| Quantity (magnitude : scalar).

(** The classes passed as [to_type]. *)
Inductive pytype := TInt | TFloat | TBool | TStr | TOther (class_name : string).

(** [issubclass(to_type, (int, float))]; [bool] is a subclass of [int]. *)
Definition is_int_or_float (t : pytype) : bool :=
  match t with
  | TInt | TFloat | TBool => true
  | _ => false
  end.

(** [pandas.isna] on a scalar. *)
Definition isna (v : scalar) : bool :=
  match v with
  | VNone => true
  | VFloat x => is_nan x
  | _ => false
  end.

(** [value == ''] *)
Definition is_empty_str (v : scalar) : bool :=
  match v with
  | VStr EmptyString => true
  | _ => false
  end.

(** [s == v] for a string [s], as [in] tests it on each member. *)
Definition str_equals (s : string) (v : scalar) : bool :=
  match v with
  | VStr t => String.eqb s t
  | _ => false
  end.

(** ** The libraries and the environment

    What the module calls and is not part of it: the builtins [float] and
    [round], [dateutil.parser.parse], [typepigeon.convert_value], the file
    system behind [open], [gzip.GzipFile] and the UTF-8 codec.  They stay
    parameters; what a property needs of them is a hypothesis of its
    statement. *)
Class Runtime := {
  (** [float(s)] *)
  float_of_str : string -> result float;
  (** [round(v, ndigits)] *)
  round : scalar -> Z -> result scalar;
  (** [parse_date(s)] *)
  parse_date : string -> result Py.datetime;
  (** [typepigeon.convert_value(v, to_type)] *)
  convert_value : scalar -> pytype -> result scalar;
  (** [open(path).readlines()], by the text [str(path)] of the path *)
  open_readlines : string -> result (list string);
  (** the lines [gzip.GzipFile(fileobj=...)] yields, and the exception that
      ends the iteration early, if one does *)
  GzipFile : string -> list string * option exn;
  (** [line.decode('UTF-8')] *)
  decode : string -> result string
}.

(** ** The decoder *)

Record record := {
  basin : string;
  storm_number : string;
  record_type : string;
  datetime : Py.datetime;
  latitude : float;
  longitude : scalar;
  max_sustained_wind_speed : scalar;
  central_pressure : scalar;
  development_level : string;
  isotach : scalar;
  quadrant : string;
  radius_for_NEQ : scalar;
  radius_for_SEQ : scalar;
  radius_for_SWQ : scalar;
  radius_for_NWQ : scalar;
  background_pressure : scalar;
  radius_of_last_closed_isobar : scalar;
  radius_of_maximum_winds : scalar;
  direction : scalar;
  speed : scalar;
  name : string
}.

Definition no_radial_wind : exn :=
  Exception
    "Error: No radial wind information for this storm; parametric wind model cannot be built.".

(** What [read_atcf] iterates over: text lines, or lines of bytes. *)
Inductive raw_line :=
| text_line (s : string)
| bytes_line (b : string).

(** What [read_atcf] is given: an [io.BytesIO] with its content, or anything
    else, which ends up in [open] and is known by its text [str(atcf)]. *)
Inductive source :=
| BytesIO (content : string)
| PathLike (text : string).

(** The lines an [io.BytesIO] yields: each up to and with its line feed. *)
Fixpoint BytesIO_lines (content : string) : list string :=
  match content with
  | EmptyString => []
  | String c rest =>
      if (Py.code c =? 10)%N then String c EmptyString :: BytesIO_lines rest
      else match BytesIO_lines rest with
           | l :: ls => String c l :: ls
           | [] => [String c EmptyString]
           end
  end.

(** The gzip magic number, bytes 1f 8b. *)
Definition gzip_magic (content : string) : bool :=
  match content with
  | String a (String b _) => (Py.code a =? 31)%N && (Py.code b =? 139)%N
  | _ => false
  end.

Section Decoder.

Context {R : Runtime}.

Definition normalize_atcf_value
    (value : any) (to_type : pytype) (round_digits : option Z) : result scalar :=
  let value :=
    match value with
    | Quantity magnitude => magnitude
    | Plain v => v
    end in
  if negb (isna value || is_empty_str value) then
    value <-
      match round_digits with
      | Some digits =>
          if is_int_or_float to_type then
            value <-
              match value with
              | VStr s => x <- float_of_str s ;; Ok (VFloat x)
              | _ => Ok value
              end ;;
            round value digits
          else Ok value
      | None => Ok value
      end ;;
    convert_value value to_type
  else Ok value.

(** A nullable integer cell: [normalize_atcf_value(line[i], int)]. *)
Definition int_cell (line : list string) (i : nat) : result scalar :=
  s <- Py.item line i ;;
  normalize_atcf_value (Plain (VStr s)) TInt None.

(** The fields of a line: split on commas, stripped, and without the
    backslash-n sequences. *)
Definition fields (line : string) : list string :=
  map Py.remove_backslash_n (map Py.strip (Py.split "," line)).

(** Lines 252 to 258. *)
Definition decode_latitude (latitude : string) : result float :=
  if Py.contains "N" latitude then
    x <- float_of_str (Py.strip_char "N" latitude) ;;
    Ok (x * 0.1)%float
  else if Py.contains "S" latitude then
    x <- float_of_str (Py.strip_char "S" latitude) ;;
    Ok (x * -1 * 0.1)%float
  else Err TypeError.

(** Lines 260 to 265. *)
Definition decode_longitude (longitude : string) : result scalar :=
  if Py.contains "E" longitude then
    x <- float_of_str (Py.strip_char "E" longitude) ;;
    Ok (VFloat (x * 0.1)%float)
  else if Py.contains "W" longitude then
    x <- float_of_str (Py.strip_char "W" longitude) ;;
    Ok (VFloat (x * -0.1)%float)
  else Ok (VStr longitude).

(** Lines 238 to 250. *)
Definition decode_datetime (line : list string) (record_type : string)
  : result Py.datetime :=
  minutes <-
    (if String.eqb record_type "BEST" then
       minute_field <- Py.item line 3 ;;
       Ok (if (0 <? String.length minute_field)%nat then minute_field else "00")
     else Ok "00") ;;
  base <- Py.item line 2 ;;
  datetime <- parse_date (base ++ minutes) ;;
  hours_field <- Py.item line 5 ;;
  forecast_hours <- Py.int hours_field ;;
  if forecast_hours =? 0 then Ok datetime
  else Py.add_hours datetime forecast_hours.

Definition read_atcf_line (line : string) : result record :=
  let line := fields line in
  basin <- Py.item line 0 ;;
  storm_number <- Py.item line 1 ;;
  record_type <- Py.item line 4 ;;
  datetime <- decode_datetime line record_type ;;
  latitude <- Py.item line 6 ;;
  latitude <- decode_latitude latitude ;;
  longitude <- Py.item line 7 ;;
  longitude <- decode_longitude longitude ;;
  max_sustained_wind_speed <- int_cell line 8 ;;
  central_pressure <- int_cell line 9 ;;
  development_level <- Py.item line 10 ;;
  isotach_field <- Py.item line 11 ;;
  isotach <-
    except_ValueError
      (normalize_atcf_value (Plain (VStr isotach_field)) TInt None)
      no_radial_wind ;;
  quadrant <- Py.item line 12 ;;
  radius_for_NEQ <- int_cell line 13 ;;
  radius_for_SEQ <- int_cell line 14 ;;
  radius_for_SWQ <- int_cell line 15 ;;
  radius_for_NWQ <- int_cell line 16 ;;
  '(background_pressure, radius_of_last_closed_isobar, radius_of_maximum_winds) <-
    (if (18 <? List.length line)%nat then
       a <- int_cell line 17 ;;
       b <- int_cell line 18 ;;
       c <- int_cell line 19 ;;
       Ok (a, b, c)
     else Ok (VFloat nan, VFloat nan, VFloat nan)) ;;
  '(direction, speed) <-
    (if (23 <? List.length line)%nat then
       a <- int_cell line 25 ;;
       b <- int_cell line 26 ;;
       Ok (a, b)
     else Ok (VFloat nan, VFloat nan)) ;;
  name <-
    (if (27 <? List.length line)%nat then Py.item line 27 else Ok EmptyString) ;;
  Ok {| basin := basin; storm_number := storm_number;
        record_type := record_type; datetime := datetime;
        latitude := latitude; longitude := longitude;
        max_sustained_wind_speed := max_sustained_wind_speed;
        central_pressure := central_pressure;
        development_level := development_level; isotach := isotach;
        quadrant := quadrant;
        radius_for_NEQ := radius_for_NEQ; radius_for_SEQ := radius_for_SEQ;
        radius_for_SWQ := radius_for_SWQ; radius_for_NWQ := radius_for_NWQ;
        background_pressure := background_pressure;
        radius_of_last_closed_isobar := radius_of_last_closed_isobar;
        radius_of_maximum_winds := radius_of_maximum_winds;
        direction := direction; speed := speed; name := name |}.

(** Lines 178 to 181: the filter set, each member converted to [str]. *)
Definition convert_record_types (record_types : option (list scalar))
  : result (option (list scalar)) :=
  match record_types with
  | Some types =>
      types <- mapM (fun record_type => convert_value record_type TStr) types ;;
      Ok (Some types)
  | None => Ok None
  end.

(** Lines 183 to 201: what the loop iterates over, and the exception that
    ends the iteration early, if one does. *)
Definition lines_of (atcf : source) : result (list raw_line * option exn) :=
  match atcf with
  | BytesIO content =>
      if gzip_magic content then
        let '(lines, failure) := GzipFile content in
        Ok (map bytes_line lines, failure)
      else if (String.length content =? 0)%nat then Err (ValueError empty_file)
      else Ok (map bytes_line (BytesIO_lines content), None)
  | PathLike text =>
      match open_readlines text with
      | Ok lines => Ok (map text_line lines, None)
      | Err FileNotFoundError =>
          let atcf := Py.splitlines text in
          if (List.length atcf =? 1)%nat then Err FileNotFoundError
          else Ok (map text_line atcf, None)
      | Err e => Err e
      end
  end.

(** Lines 205 and 206. *)
Definition decode_line (line : raw_line) : result string :=
  match line with
  | bytes_line b => decode b
  | text_line s => Ok s
  end.

(** The test of line 207. *)
Definition selects (record_types : option (list scalar)) (line : string)
  : result bool :=
  match record_types with
  | None => Ok true
  | Some types =>
      tag <- Py.item (Py.split "," line) 4 ;;
      Ok (existsb (str_equals (Py.strip tag)) types)
  end.

(** The loop, lines 203 to 208: the records of the lines that pass the
    filter, in the order of the lines. *)
Fixpoint read_records (record_types : option (list scalar))
    (atcf : list raw_line) (failure : option exn) : result (list record) :=
  match atcf with
  | [] =>
      match failure with
      | Some e => Err e
      | None => Ok []
      end
  | line :: rest =>
      line <- decode_line line ;;
      selected <- selects record_types line ;;
      if selected : bool then
        record <- read_atcf_line line ;;
        records <- read_records record_types rest failure ;;
        Ok (record :: records)
      else read_records record_types rest failure
  end.

Definition read_atcf (atcf : source) (record_types : option (list scalar))
  : result (list record) :=
  record_types <- convert_record_types record_types ;;
  '(atcf, failure) <- lines_of atcf ;;
  records <- read_records record_types atcf failure ;;
  if (List.length records =? 0)%nat then Err (ValueError no_records_found)
  else Ok records.

End Decoder.

(** ** What the properties assume of the libraries *)

(** [float] reads a string of decimal digits as the number it writes. *)
Definition float_reads_digits (R : Runtime) : Prop :=
  forall s, s <> EmptyString -> Py.all_digits s = true ->
    float_of_str s = Ok (Py.Z2float (Py.decimal s)).

(** The fields of a timestamp of twelve digits, [YYYYMMDDhhmm]. *)
Definition timestamp_fields (s : string) : Py.datetime :=
  {| Py.year := Py.decimal (substring 0 4 s);
     Py.month := Py.decimal (substring 4 2 s);
     Py.day := Py.decimal (substring 6 2 s);
     Py.hour := Py.decimal (substring 8 2 s);
     Py.minute := Py.decimal (substring 10 2 s);
     Py.second := 0; Py.microsecond := 0 |}.

Definition valid_datetime (d : Py.datetime) : bool :=
  (1 <=? Py.year d) && (Py.year d <=? 9999)
  && (1 <=? Py.month d) && (Py.month d <=? 12)
  && (1 <=? Py.day d) && (Py.day d <=? Py.days_in_month (Py.year d) (Py.month d))
  && (0 <=? Py.hour d) && (Py.hour d <=? 23)
  && (0 <=? Py.minute d) && (Py.minute d <=? 59).

(** [parse_date] reads twelve digits that write a date and a time of day
    as year, month, day, hour and minute. *)
Definition parse_date_reads_timestamps (R : Runtime) : Prop :=
  forall s, String.length s = 12%nat -> Py.all_digits s = true ->
    valid_datetime (timestamp_fields s) = true ->
    parse_date s = Ok (timestamp_fields s).

(** [convert_value] makes of a string of decimal digits, of no more than
    [int] reads, the integer it writes. *)
Definition convert_value_reads_digits (R : Runtime) : Prop :=
  forall s, s <> EmptyString -> Py.all_digits s = true ->
    (String.length s <= Py.int_max_str_digits)%nat ->
    convert_value (VStr s) TInt = Ok (VInt (Py.decimal s)).

(** [convert_value] to [str] returns a string as it is. *)
Definition convert_value_keeps_strings (R : Runtime) : Prop :=
  forall s, convert_value (VStr s) TStr = Ok (VStr s).

(** Every member of a filter set is a string. *)
Definition all_strings (record_types : list scalar) : Prop :=
  forall v, In v record_types -> exists s, v = VStr s.

(** ** A runtime for the worked examples

    It answers as the libraries do on the arguments the examples reach and
    raises [outside] on every other one: it guesses nothing.  The
    environment has no file, so that a text passed to [read_atcf] is read
    as the content itself when [open] does not find it. *)
Module Reference.

Definition outside {A} : result A := Err (OtherError "outside the reference runtime").

(** Decimal digits after an optional sign, white space around them. *)
Definition float_of_str (s : string) : result float :=
  let literal := Py.strip_by Py.is_literal_space s in
  let signed :=
    match literal with
    | String c s' =>
        if Ascii.eqb c "-" then (true, s')
        else if Ascii.eqb c "+" then (false, s')
        else (false, literal)
    | EmptyString => (false, literal)
    end in
  match snd signed with
  | EmptyString => Err (ValueError (invalid_value "could not convert string to float"))
  | digits =>
      if Py.all_digits digits then
        Ok (if fst signed then (- Py.Z2float (Py.decimal digits))%float
            else Py.Z2float (Py.decimal digits))
      else outside
  end.

(** An [int] rounded to no fewer digits than it has is itself. *)
Definition round (v : scalar) (digits : Z) : result scalar :=
  match v with
  | VInt n => if 0 <=? digits then Ok (VInt n) else outside
  | _ => outside
  end.

Definition parse_date (s : string) : result Py.datetime :=
  if (String.length s =? 12)%nat && Py.all_digits s
     && valid_datetime (timestamp_fields s)
  then Ok (timestamp_fields s)
  else outside.

(** A string to [int] goes through [int(s)]; a value of the class asked for
    is returned as it is. *)
Definition convert_value (v : scalar) (to_type : pytype) : result scalar :=
  match v, to_type with
  | VStr s, TInt => n <- Py.int s ;; Ok (VInt n)
  | VInt n, TInt => Ok (VInt n)
  | VStr s, TStr => Ok (VStr s)
  | VFloat x, TFloat => Ok (VFloat x)
  | _, _ => outside
  end.

Fixpoint is_ascii (s : string) : bool :=
  match s with
  | String c s' => (Py.code c <? 128)%N && is_ascii s'
  | EmptyString => true
  end.

Definition decode (b : string) : result string :=
  if is_ascii b then Ok b else outside.

(** The bytes of the UTF-8 form of a text of code points below 256. *)
Fixpoint byte_length (s : string) : nat :=
  match s with
  | String c s' => (if (Py.code c <? 128)%N then 1 else 2) + byte_length s'
  | EmptyString => 0
  end.

(** A component of a path that names a directory there always is. *)
Definition names_a_directory (component : string) : bool :=
  String.eqb component EmptyString || String.eqb component "."
  || String.eqb component "..".

(** [open(path).readlines()] where no file exists, as Linux answers: a
    null character is refused, so is a path of 4096 bytes or more; the
    first component that is not the root, [.] or [..] is not found, or is
    too long when it has more than 255 bytes; the empty path is not found,
    and a path of directories only is a directory. *)
Definition open_readlines (path : string) : result (list string) :=
  if Py.contains "000" path then
    Err (ValueError (invalid_value "embedded null byte"))
  else if (4096 <=? byte_length path)%nat then Err (OtherError "OSError")
  else
    match filter (fun c => negb (names_a_directory c)) (Py.split "/" path) with
    | component :: _ =>
        if (255 <? byte_length component)%nat then Err (OtherError "OSError")
        else Err FileNotFoundError
    | [] =>
        match path with
        | EmptyString => Err FileNotFoundError
        | String _ _ => Err (OtherError "IsADirectoryError")
        end
    end.

Definition runtime : Runtime :=
  Build_Runtime float_of_str round parse_date convert_value
    open_readlines
    (fun _ => ([], Some (OtherError "outside the reference runtime")))
    decode.

End Reference.

(** ** The vocabulary of the statements *)

(** [x] lies between minus [limit] and [limit]. *)
Definition within (limit x : float) : bool :=
  ((- limit <=? x) && (x <=? limit))%float.

(** The three ways a number of tenths is scaled, all within [limit]. *)
Definition tenths_within (limit : float) (n : nat) : bool :=
  let x := Py.Z2float (Z.of_nat n) in
  within limit (x * 0.1)%float && within limit (x * -1 * 0.1)%float
  && within limit (x * -0.1)%float.

(** The minutes as the specification words them: the fourth field when the
    record type is BEST and the field is not empty, and 00 otherwise. *)
Definition minute_component (f : list string) (record_type : string) : string :=
  match nth_error f 3 with
  | Some m =>
      if String.eqb record_type "BEST" && negb (String.eqb m EmptyString)
      then m else "00"
  | None => "00"
  end.

(** A date and a time of day to the minute. *)
Definition at_minute (y m d h mi : Z) : Py.datetime :=
  {| Py.year := y; Py.month := m; Py.day := d; Py.hour := h; Py.minute := mi;
     Py.second := 0; Py.microsecond := 0 |}.

(** A line is kept when the test of the filter returns true. *)
Definition kept {R : Runtime} (record_types : option (list scalar))
    (line : string) : bool :=
  match selects record_types line with
  | Ok true => true
  | _ => false
  end.

(** ** The lines and texts of the worked examples *)

(** The line feed. *)
Definition LF : string := String "010"%char EmptyString.

(** The line of the end-to-end example, and the same with no letter after
    the longitude. *)
Definition example_line : string :=
  "AL, 09, 2005082912, , BEST, 0, 241N, 0800W, 65, 1000, TS, 34, NEQ, 120, 90, 60, 90".

(** Two lines of the example. *)
Definition example_text : string := example_line ++ LF ++ example_line.

Definition line_without_hemisphere : string :=
  "AL, 09, 2005082912, , BEST, 0, 241N, 0800, 65, 1000, TS, 34, NEQ, 120, 90, 60, 90".

(** The example with 99.9 degrees north and 190 degrees west. *)
Definition line_out_of_range : string :=
  "AL, 09, 2005082912, , BEST, 0, 999N, 1900W, 65, 1000, TS, 34, NEQ, 120, 90, 60, 90".

(** The example with 99.9 degrees north and 80 degrees west. *)
Definition line_far_north : string :=
  "AL, 09, 2005082912, , BEST, 0, 999N, 0800W, 65, 1000, TS, 34, NEQ, 120, 90, 60, 90".

(** The example in the south and in the east. *)
Definition south_east_line : string :=
  "AL, 09, 2005082912, , BEST, 0, 241S, 0800E, 65, 1000, TS, 34, NEQ, 120, 90, 60, 90".

(** The example as a forecast of the type OFCL for 12 hours later. *)
Definition ofcl_line_after_12_hours : string :=
  "AL, 09, 2005082912, , OFCL, 12, 241N, 0800W, 65, 1000, TS, 34, NEQ, 120, 90, 60, 90".

(** The example with 30 in the field of the minutes. *)
Definition best_line_with_minutes : string :=
  "AL, 09, 2005082912, 30, BEST, 0, 241N, 0800W, 65, 1000, TS, 34, NEQ, 120, 90, 60, 90".

(** The example with a blank isotach, and with letters for it. *)
Definition line_with_blank_isotach : string :=
  "AL, 09, 2005082912, , BEST, 0, 241N, 0800W, 65, 1000, TS, , NEQ, 120, 90, 60, 90".

Definition line_with_isotach_abc : string :=
  "AL, 09, 2005082912, , BEST, 0, 241N, 0800W, 65, 1000, TS, abc, NEQ, 120, 90, 60, 90".

(** The example with two fields more, and with seven more. *)
Definition line_of_19_fields : string :=
  "AL, 09, 2005082912, , BEST, 0, 241N, 0800W, 65, 1000, TS, 34, NEQ, 120, 90, 60, 90, 1012, 200".

Definition line_of_24_fields : string :=
  "AL, 09, 2005082912, , BEST, 0, 241N, 0800W, 65, 1000, TS, 34, NEQ, 120, 90, 60, 90, 1012, 200, 25, 0, 0, L, 0".

(** A line whose fifth field holds a backslash and an n between BE and ST,
    and a text of two such lines. *)
Definition escaped_line : string :=
  "AL, 09, 2005082912, , BE\nST, 0, 241N, 0800W, 65, 1000, TS, 34, NEQ, 120, 90, 60, 90".

Definition escaped_text : string := escaped_line ++ LF ++ escaped_line.

(** A first line whose hours do not read as an integer, and a blank line. *)
Definition text_with_bad_hours_then_blank : string :=
  "AL, 09, 2005082912, , BEST, zz" ++ LF ++ LF.

(** A line of the example, and a blank line after it. *)
Definition text_with_blank_line : string := example_line ++ LF ++ LF.

(** ** The vocabulary of the further properties *)

(** Every character of [s] passes [p]. *)
Fixpoint all_chars (p : ascii -> bool) (s : string) : bool :=
  match s with
  | String c s' => p c && all_chars p s'
  | EmptyString => true
  end.

(** A character that ends no line but the line feed does: the line feed
    itself, or one that neither [splitlines] nor a reader of bytes breaks
    at. *)
Definition breaks_at_line_feed_only (c : ascii) : bool :=
  (Py.code c =? 10)%N
  || negb ((Py.code c =? 13)%N || Py.is_line_break c).

(** A line of bytes and a line of text that differ by white space at the
    end of the first. *)
Definition same_but_for_the_end (b t : string) : Prop :=
  exists w, all_chars Py.is_space w = true /\ b = (t ++ w)%string.

(** * The addresses of the decks

    [atcf_url], [get_atcf_entry], [get_atcf_file] and [atcf_storm_ids]. *)

(** ** More of the Python builtins *)

Module PyStr.

(** [s[n:]] *)
Fixpoint slice_from (n : nat) (s : string) : string :=
  match n, s with
  | S n', String _ s' => slice_from n' s'
  | _, _ => s
  end.

(** [s.lower()], on code points below 256: the letters A to Z, and the
    capital letters from 192 to 222, which the multiplication sign at 215
    is not one of. *)
Definition lower_char (c : ascii) : ascii :=
  let n := Py.code c in
  if (((65 <=? n) && (n <=? 90))
      || ((192 <=? n) && (n <=? 222) && negb (n =? 215)))%N
  then ascii_of_N (n + 32) else c.

Fixpoint lower (s : string) : string :=
  match s with
  | String c s' => String (lower_char c) (lower s')
  | EmptyString => EmptyString
  end.

(** [str(n)] of an integer. *)
Definition str_of_int (n : Z) : string :=
  DecimalString.NilZero.string_of_int (Z.to_int n).

(** [f'{n}'] of an integer or [None]. *)
Definition format_int (n : option Z) : string :=
  match n with
  | Some n => str_of_int n
  | None => "None"
  end.

(** [f'{s}'] of a string or [None]. *)
Definition format_str (s : option string) : string :=
  match s with
  | Some s => s
  | None => "None"
  end.

(** [s] begins with [p]. *)
Fixpoint starts_with (p s : string) : bool :=
  match p, s with
  | EmptyString, _ => true
  | String a p', String b s' => Ascii.eqb a b && starts_with p' s'
  | String _ _, EmptyString => false
  end.

(** [s.replace(p, '')] for a pattern [p] that is not empty: the
    occurrences of [p] go, found from the left, none overlapping another.
    [skip] counts the characters of an occurrence that are still to go. *)
Fixpoint remove_from (p : string) (skip : nat) (s : string) : string :=
  match s with
  | EmptyString => EmptyString
  | String c s' =>
      match skip with
      | S k => remove_from p k s'
      | O =>
          if starts_with p s then remove_from p (Nat.pred (String.length p)) s'
          else String c (remove_from p 0 s')
      end
  end.

Definition remove_all (p s : string) : string := remove_from p 0 s.

(** [s.split(sep, 1)]: the text before the first separator and the text
    after it, or nothing when there is no separator. *)
Fixpoint split_once (sep : ascii) (s : string) : option (string * string) :=
  match s with
  | EmptyString => None
  | String c s' =>
      if Ascii.eqb c sep then Some (EmptyString, s')
      else match split_once sep s' with
           | Some (before, after) => Some (String c before, after)
           | None => None
           end
  end.

(** [sorted(l, reverse=True)] on strings, which compare by their code
    points: the one list with the members of [l] in which none is followed
    by a greater one. *)
Fixpoint insert_descending (x : string) (l : list string) : list string :=
  match l with
  | [] => [x]
  | y :: l' => if String.leb y x then x :: l else y :: insert_descending x l'
  end.

Definition sorted_reverse (l : list string) : list string :=
  fold_right insert_descending [] l.

(** [d[key]] of a dictionary given by its items. *)
Fixpoint getitem (d : list (string * string)) (key : string) : result string :=
  match d with
  | [] => Err (OtherError "KeyError")
  | (k, v) :: d' => if String.eqb k key then Ok v else getitem d' key
  end.

End PyStr.

(** ** The enumerations, the catalog and the server *)

Module ATCF_FileDeck.

Inductive t := a | b | f.

Definition value (d : t) : string :=
  match d with
  | a => "a"
  | b => "b"
  | f => "f"
  end.

End ATCF_FileDeck.

Module ATCF_Mode.

Inductive t := historical | realtime.

Definition value (m : t) : string :=
  match m with
  | historical => "ARCHIVE"
  | realtime => "aid_public"
  end.

End ATCF_Mode.

(** An argument that should be a member of an enumeration: a member, or
    another value, [None] among them. *)
Inductive argument (E : Type) :=
| member (e : E)
| other (v : scalar).

Arguments member {E} e.
Arguments other {E} v.

(** A row of the table of storms, with the columns that are read here. *)
Module Storm.

Record t := { basin : string; number : Z; name : string; source : string }.

End Storm.

(** What these functions call and is not part of the module: the table of
    [nhc_storms], the search of [Series.str.contains], which first compiles
    its pattern, [str.upper], the conversions of [typepigeon.convert_value]
    to the two enumerations, which return a member or [None], and the two
    exchanges with the FTP server, each with the connection and the login
    before it. *)
Class Services := {
  nhc_storms : option Z -> result (list Storm.t);
  str_contains : string -> result (string -> bool);
  upper : string -> string;
  to_file_deck : scalar -> result (option ATCF_FileDeck.t);
  to_mode : scalar -> result (option ATCF_Mode.t);
  (** [ftplib.FTP(host, 'anonymous', '').mlsd(directory)]: names and facts *)
  FTP_mlsd : string -> string -> result (list (string * list (string * string)));
  (** the bytes written by [ftplib.FTP(host, ...).retrbinary('RETR ' + filename, ...)] *)
  FTP_retrbinary : string -> string -> result string
}.

Definition NotImplementedError : exn := OtherError "NotImplementedError".

(** [socket.gaierror], and the [ConnectionError] raised in its place. *)
Definition gaierror : exn := OtherError "gaierror".
Definition ConnectionError : exn := OtherError "ConnectionError".

(** The double quote. *)
Definition quote : string := String "034"%char EmptyString.

Definition is_None {A} (x : option A) : bool :=
  match x with
  | None => true
  | Some _ => false
  end.

Section Addresses.

Context {S : Services}.

(** [try: convert(v)  except ValueError: None]. *)
Definition or_None {A} (m : result (option A)) : result (option A) :=
  match m with
  | Err (ValueError _) => Ok None
  | m => m
  end.

Definition get_atcf_entry (year : option Z) (basin : option string)
    (storm_number : option Z) (storm_name : option string) : result Storm.t :=
  storms <- nhc_storms year ;;
  if is_None storm_name && (is_None basin && is_None storm_number) then
    Err (ValueError
           (invalid_value "need either storm name + year OR basin + storm number + year"))
  else
    storms <-
      match basin with
      | Some basin =>
          found <- str_contains (upper basin) ;;
          Ok (filter (fun storm => found (Storm.basin storm)) storms)
      | None => Ok storms
      end ;;
    storms <-
      match storm_number with
      | Some storm_number =>
          Ok (filter (fun storm => Storm.number storm =? storm_number) storms)
      | None => Ok storms
      end ;;
    storms <-
      match storm_name with
      | Some storm_name =>
          found <- str_contains (upper storm_name) ;;
          Ok (filter (fun storm => found (Storm.name storm)) storms)
      | None => Ok storms
      end ;;
    match storms with
    | storm :: _ => Ok storm
    | [] =>
        let message := "no storms with given info" in
        let message :=
          match storm_name with
          | Some storm_name => message ++ " (" ++ quote ++ storm_name ++ quote ++ ")"
          | None =>
              message ++ " (" ++ quote ++ PyStr.format_str basin
              ++ PyStr.format_int storm_number ++ quote ++ ")"
          end in
        let message := message ++ " found in " ++ PyStr.format_int year in
        Err (ValueError (invalid_value message))
    end.

Definition atcf_url (file_deck : argument ATCF_FileDeck.t)
    (storm_id : option string) (mode : argument ATCF_Mode.t) : result string :=
  year <-
    match storm_id with
    | Some storm_id => year <- Py.int (PyStr.slice_from 4 storm_id) ;; Ok (Some year)
    | None => Ok None
    end ;;
  mode <-
    match mode with
    | other VNone =>
        match storm_id with
        | Some storm_id =>
            let basin := substring 0 2 storm_id in
            storm_number <- Py.int (substring 2 2 storm_id) ;;
            entry <- get_atcf_entry year (Some basin) (Some storm_number) None ;;
            if String.eqb (Storm.source entry) "ARCHIVE"
            then Ok (member ATCF_Mode.historical)
            else Ok (member ATCF_Mode.realtime)
        | None => Err TypeError
        end
    | _ => Ok mode
    end ;;
  file_deck <-
    match file_deck with
    | member d => Ok (Some d)
    | other v => or_None (to_file_deck v)
    end ;;
  let file_deck :=
    match file_deck with
    | Some d => d
    | None => ATCF_FileDeck.a
    end in
  mode <-
    match mode with
    | member m => Ok (Some m)
    | other v => or_None (to_mode v)
    end ;;
  '(nhc_dir, suffix) <-
    match mode with
    | Some ATCF_Mode.historical =>
        Ok ("archive/" ++ PyStr.format_int year, ".dat.gz")
    | Some ATCF_Mode.realtime =>
        match file_deck with
        | ATCF_FileDeck.a => Ok ("aid_public", ".dat.gz")
        | ATCF_FileDeck.b => Ok ("btk", ".dat")
        | ATCF_FileDeck.f => Err NotImplementedError
        end
    | None => Err NotImplementedError
    end ;;
  let url := "ftp://ftp.nhc.noaa.gov/atcf/" ++ nhc_dir ++ "/" in
  match storm_id with
  | Some storm_id =>
      Ok (url ++ ATCF_FileDeck.value file_deck ++ PyStr.lower storm_id ++ suffix)
  | None => Ok url
  end.

(** The host and the path of an address: [url.replace('ftp://', '')] split
    once at a slash; a text without a slash cannot be unpacked. *)
Definition host_and_path (url : string) : result (string * string) :=
  match PyStr.split_once "/" (PyStr.remove_all "ftp://" url) with
  | Some parts => Ok parts
  | None => Err (ValueError (invalid_value "not enough values to unpack"))
  end.

Definition get_atcf_file (storm_id : string)
    (file_deck : argument ATCF_FileDeck.t) (mode : argument ATCF_Mode.t)
  : result source :=
  url <- atcf_url file_deck (Some storm_id) mode ;;
  '(hostname, filename) <- host_and_path url ;;
  match FTP_retrbinary hostname filename with
  | Ok content => Ok (BytesIO content)
  | Err (OtherError "gaierror") => Err ConnectionError
  | Err e => Err e
  end.

Definition atcf_storm_ids (file_deck : argument ATCF_FileDeck.t)
    (mode : argument ATCF_Mode.t) : result (list string) :=
  file_deck <-
    match file_deck with
    | other VNone => Ok (Some ATCF_FileDeck.a)
    | member d => Ok (Some d)
    | other v => to_file_deck v
    end ;;
  url <-
    atcf_url
      match file_deck with
      | Some d => member d
      | None => other VNone
      end
      None mode ;;
  '(hostname, directory) <- host_and_path url ;;
  listing <- FTP_mlsd hostname directory ;;
  filenames <-
    mapM (fun '(filename, metadata) =>
            type <- PyStr.getitem metadata "type" ;;
            Ok (filename, String.eqb type "file"))
         listing ;;
  let filenames := map fst (filter snd filenames) in
  filenames <-
    match file_deck with
    | Some d =>
        selected <-
          mapM (fun filename =>
                  first <- Py.item (list_ascii_of_string filename) 0 ;;
                  Ok (filename,
                      String.eqb (String first EmptyString) (ATCF_FileDeck.value d)))
               filenames ;;
        Ok (map fst (filter snd selected))
    | None => Ok filenames
    end ;;
  Ok (PyStr.sorted_reverse
        (map (fun filename => hd EmptyString (Py.split "." filename)) filenames)).

End Addresses.

(** ** The vocabulary of the properties of the addresses *)

(** The beginning of every address. *)
Definition server_root : string := "ftp://ftp.nhc.noaa.gov/atcf/".

(** [x] is not less than [y], as strings compare. *)
Definition not_less (x y : string) : Prop := String.leb y x = true.

(** The name of a file up to its first dot. *)
Definition stem (filename : string) : string :=
  hd EmptyString (Py.split "." filename).

(** A storm meets the criteria that are given: the two searches, when their
    patterns are given, and the number. *)
Definition wanted (found_basin : option (string -> bool))
    (storm_number : option Z) (found_name : option (string -> bool))
    (storm : Storm.t) : bool :=
  match found_basin with
  | Some found => found (Storm.basin storm)
  | None => true
  end
  && match storm_number with
     | Some n => Storm.number storm =? n
     | None => true
     end
  && match found_name with
     | Some found => found (Storm.name storm)
     | None => true
     end.

(** The search that a criterion asks for, when the criterion is given and
    its pattern compiles. *)
Definition search_for {S : Services} (criterion : option string)
    (found : option (string -> bool)) : Prop :=
  match criterion, found with
  | Some text, Some f => str_contains (upper text) = Ok f
  | None, None => True
  | _, _ => False
  end.

(** The same services with other answers to the retrievals. *)
Definition with_retrbinary (S : Services)
    (retrbinary : string -> string -> result string) : Services :=
  Build_Services nhc_storms str_contains upper to_file_deck to_mode FTP_mlsd
    retrbinary.

(** ** A catalog and a server for the worked examples

    Three storms; a search that looks for the pattern as it is written,
    which is what the search does with a pattern of digits and of letters
    of ASCII; a listing of the directory of the best tracks and one file in
    it.  What is not among these raises. *)
Module Sample.

Definition storms : list Storm.t :=
  [ {| Storm.basin := "AL"; Storm.number := 9; Storm.name := "IRENE";
       Storm.source := "ARCHIVE" |};
    {| Storm.basin := "AL"; Storm.number := 12; Storm.name := "KATRINA";
       Storm.source := "ARCHIVE" |};
    {| Storm.basin := "EP"; Storm.number := 9; Storm.name := "HILARY";
       Storm.source := "btk" |} ].

Fixpoint occurs (p s : string) : bool :=
  PyStr.starts_with p s
  || match s with
     | String _ s' => occurs p s'
     | EmptyString => false
     end.

Definition is_alnum (c : ascii) : bool :=
  let n := Py.code c in
  (((48 <=? n) && (n <=? 57)) || ((65 <=? n) && (n <=? 90))
   || ((97 <=? n) && (n <=? 122)))%N.

Definition str_contains (p : string) : result (string -> bool) :=
  if all_chars is_alnum p then Ok (occurs p) else Reference.outside.

Definition upper_char (c : ascii) : ascii :=
  let n := Py.code c in
  if ((97 <=? n) && (n <=? 122))%N then ascii_of_N (n - 32) else c.

Fixpoint upper (s : string) : string :=
  match s with
  | String c s' => String (upper_char c) (upper s')
  | EmptyString => EmptyString
  end.

Definition listing : list (string * list (string * string)) :=
  [ ("bal092005.dat", [("type", "file"); ("size", "4380")]);
    ("archive", [("type", "dir")]);
    ("bep092005.dat", [("type", "file")]);
    ("bal122005.dat", [("type", "file")]);
    ("aal122005.dat", [("type", "file")]) ].

Definition FTP_mlsd (host directory : string)
  : result (list (string * list (string * string))) :=
  if String.eqb host "ftp.nhc.noaa.gov" && String.eqb directory "atcf/btk/"
  then Ok listing else Err gaierror.

Definition FTP_retrbinary (host filename : string) : result string :=
  if String.eqb host "ftp.nhc.noaa.gov"
     && String.eqb filename "atcf/btk/bal092005.dat"
  then Ok example_text else Err gaierror.

(** [typepigeon.convert_value(None, ...)] is [None]. *)
Definition to_member {E} (v : scalar) : result (option E) :=
  match v with
  | VNone => Ok None
  | _ => Reference.outside
  end.

Definition services : Services :=
  Build_Services (fun _ => Ok storms) str_contains upper
    to_member to_member FTP_mlsd FTP_retrbinary.

End Sample.

(** * Properties *)

(** ** Reasoning about [result] *)

Lemma bind_Ok {A B} (m : result A) (k : A -> result B) (b : B) :
  bind m k = Ok b -> exists a, m = Ok a /\ k a = Ok b.
Proof.
  destruct m as [a | e]; simpl; intros H; [ | discriminate H ].
  exists a. split; [ reflexivity | exact H ].
Qed.

(** One step through a successful sequence: the first computation of the
    [bind] in [H] returned, and [H] goes on with the rest. *)
Ltac bind_step H :=
  match type of H with
  | bind ?m _ = Ok _ =>
      let a := fresh "a" in
      let E := fresh "E" in
      destruct m as [a | ?] eqn:E; [ cbn [bind] in H | discriminate H ]
  end.

Tactic Notation "bind_as" hyp(H) "as" simple_intropattern(a) ident(E) :=
  match type of H with
  | bind ?m _ = Ok _ =>
      destruct m as [a | ?] eqn:E; [ cbn [bind] in H | discriminate H ]
  end.

Lemma item_nth_error {A} (l : list A) (i : nat) (a : A) :
  Py.item l i = Ok a <-> nth_error l i = Some a.
Proof.
  unfold Py.item. destruct (nth_error l i); split; intros H;
    try discriminate H; injection H as ->; reflexivity.
Qed.

Lemma item_IndexError {A} (l : list A) (i : nat) :
  (List.length l <= i)%nat -> Py.item l i = Err IndexError.
Proof.
  intros H. unfold Py.item.
  rewrite (proj2 (nth_error_None l i) H). reflexivity.
Qed.

Lemma item_within {A} (l : list A) (i : nat) (a : A) :
  Py.item l i = Ok a -> (i < List.length l)%nat.
Proof.
  intros H. apply item_nth_error in H.
  apply nth_error_Some. rewrite H. discriminate.
Qed.

(** ** Strings that end in a hemisphere letter *)

Lemma contains_app (c : ascii) (p q : string) :
  Py.contains c (p ++ q) = Py.contains c p || Py.contains c q.
Proof.
  induction p as [ | d p IH ]; simpl; [ reflexivity | ].
  rewrite IH. apply orb_assoc.
Qed.

Lemma contains_suffix (c d : ascii) (p : string) :
  Py.contains c (p ++ String d EmptyString) = Py.contains c p || Ascii.eqb c d.
Proof.
  rewrite contains_app. simpl. rewrite orb_false_r. reflexivity.
Qed.

Lemma rstrip_suffix (c : ascii) (p : string) :
  Py.contains c p = false ->
  Py.rstrip_by (Ascii.eqb c) (p ++ String c EmptyString) = p.
Proof.
  induction p as [ | d p IH ]; simpl; intros H.
  - rewrite Ascii.eqb_refl. reflexivity.
  - apply orb_false_elim in H as [Hd Hp].
    rewrite (IH Hp). rewrite Hd. destruct p; reflexivity.
Qed.

Lemma strip_char_suffix (c : ascii) (p : string) :
  Py.contains c p = false ->
  Py.strip_char c (p ++ String c EmptyString) = p.
Proof.
  intros H. unfold Py.strip_char, Py.strip_by.
  destruct p as [ | d p ].
  - simpl. rewrite Ascii.eqb_refl. reflexivity.
  - assert (Hd : Ascii.eqb c d = false)
      by (simpl in H; apply orb_false_elim in H; tauto).
    change ((String d p ++ String c EmptyString)%string)
      with (String d (p ++ String c EmptyString)).
    cbn [Py.lstrip_by]. rewrite Hd.
    exact (rstrip_suffix c (String d p) H).
Qed.

(** No digit is a letter. *)
Lemma digits_without (c : ascii) (p : string) :
  Py.is_digit c = false -> Py.all_digits p = true -> Py.contains c p = false.
Proof.
  intros Hc. induction p as [ | d p IH ]; simpl; intros H; [ reflexivity | ].
  apply andb_prop in H as [Hd Hp].
  rewrite (IH Hp), orb_false_r.
  destruct (Ascii.eqb_spec c d) as [-> | ]; [ congruence | reflexivity ].
Qed.

Lemma digit_value_nonneg (c : ascii) : Py.is_digit c = true -> 0 <= Py.digit_value c <= 9.
Proof.
  unfold Py.is_digit, Py.digit_value. intros H.
  apply andb_prop in H as [H1 H2].
  apply N.leb_le in H1, H2. lia.
Qed.

Lemma decimal_from_nonneg (p : string) (acc : Z) :
  Py.all_digits p = true -> 0 <= acc -> 0 <= Py.decimal_from acc p.
Proof.
  revert acc. induction p as [ | d p IH ]; cbn [Py.decimal_from Py.all_digits];
    intros acc H Hacc; [ exact Hacc | ].
  apply andb_prop in H as [Hd Hp].
  apply IH; [ exact Hp | ]. pose proof (digit_value_nonneg d Hd). lia.
Qed.

Lemma decimal_nonneg (p : string) : Py.all_digits p = true -> 0 <= Py.decimal p.
Proof. intros H. apply decimal_from_nonneg; [ exact H | lia ]. Qed.

Section Line.

Context {R : Runtime}.

(** The latitude of a field that is a number and then N or S. *)
Lemma decode_latitude_N (p : string) :
  Py.contains "N" p = false ->
  decode_latitude (p ++ "N") = (x <- float_of_str p ;; Ok (x * 0.1)%float).
Proof.
  intros H. unfold decode_latitude.
  rewrite contains_suffix, strip_char_suffix by exact H.
  rewrite orb_true_r. reflexivity.
Qed.

Lemma decode_latitude_S (p : string) :
  Py.contains "N" p = false -> Py.contains "S" p = false ->
  decode_latitude (p ++ "S") = (x <- float_of_str p ;; Ok (x * -1 * 0.1)%float).
Proof.
  intros HN HS. unfold decode_latitude.
  rewrite !contains_suffix, strip_char_suffix by exact HS.
  rewrite HN, HS. reflexivity.
Qed.

Lemma decode_longitude_E (p : string) :
  Py.contains "E" p = false ->
  decode_longitude (p ++ "E")
  = (x <- float_of_str p ;; Ok (VFloat (x * 0.1)%float)).
Proof.
  intros H. unfold decode_longitude.
  rewrite contains_suffix, strip_char_suffix by exact H.
  rewrite orb_true_r. reflexivity.
Qed.

Lemma decode_longitude_W (p : string) :
  Py.contains "E" p = false -> Py.contains "W" p = false ->
  decode_longitude (p ++ "W")
  = (x <- float_of_str p ;; Ok (VFloat (x * -0.1)%float)).
Proof.
  intros HE HW. unfold decode_longitude.
  rewrite !contains_suffix, strip_char_suffix by exact HW.
  rewrite HE, HW. reflexivity.
Qed.

(** What a successful [read_atcf_line] says of each cell of its record. *)
Lemma read_atcf_line_Ok (line : string) (r : record) :
  read_atcf_line line = Ok r ->
  let f := fields line in
  Py.item f 0 = Ok (basin r)
  /\ Py.item f 1 = Ok (storm_number r)
  /\ Py.item f 4 = Ok (record_type r)
  /\ decode_datetime f (record_type r) = Ok (datetime r)
  /\ (exists s, Py.item f 6 = Ok s /\ decode_latitude s = Ok (latitude r))
  /\ (exists s, Py.item f 7 = Ok s /\ decode_longitude s = Ok (longitude r))
  /\ int_cell f 8 = Ok (max_sustained_wind_speed r)
  /\ int_cell f 9 = Ok (central_pressure r)
  /\ Py.item f 10 = Ok (development_level r)
  /\ (exists s, Py.item f 11 = Ok s
        /\ except_ValueError (normalize_atcf_value (Plain (VStr s)) TInt None)
             no_radial_wind = Ok (isotach r))
  /\ Py.item f 12 = Ok (quadrant r)
  /\ int_cell f 13 = Ok (radius_for_NEQ r)
  /\ int_cell f 14 = Ok (radius_for_SEQ r)
  /\ int_cell f 15 = Ok (radius_for_SWQ r)
  /\ int_cell f 16 = Ok (radius_for_NWQ r)
  /\ (if (18 <? List.length f)%nat
      then int_cell f 17 = Ok (background_pressure r)
           /\ int_cell f 18 = Ok (radius_of_last_closed_isobar r)
           /\ int_cell f 19 = Ok (radius_of_maximum_winds r)
      else background_pressure r = VFloat nan
           /\ radius_of_last_closed_isobar r = VFloat nan
           /\ radius_of_maximum_winds r = VFloat nan)
  /\ (if (23 <? List.length f)%nat
      then int_cell f 25 = Ok (direction r) /\ int_cell f 26 = Ok (speed r)
      else direction r = VFloat nan /\ speed r = VFloat nan)
  /\ (if (27 <? List.length f)%nat
      then Py.item f 27 = Ok (name r)
      else name r = EmptyString).
Proof.
  unfold read_atcf_line. intros H. cbv zeta in H |- *.
  set (f := fields line) in *.
  do 18 bind_step H.
  bind_as H as [[bp rl] rm] Eouter.
  bind_as H as [dir spd] Emotion.
  bind_as H as nm Ename.
  injection H as <-. cbn [basin storm_number record_type datetime latitude
    longitude max_sustained_wind_speed central_pressure development_level
    isotach quadrant radius_for_NEQ radius_for_SEQ radius_for_SWQ
    radius_for_NWQ background_pressure radius_of_last_closed_isobar
    radius_of_maximum_winds direction speed name].
  repeat match goal with
         | |- _ /\ _ => split
         | |- exists s, _ => eexists; split; [ reflexivity | assumption ]
         | |- _ = _ => first [ reflexivity | assumption ]
         end.
  - destruct (18 <? List.length f)%nat.
    + do 3 bind_step Eouter. injection Eouter as <- <- <-.
      repeat split; first [ reflexivity | assumption ].
    + injection Eouter as <- <- <-. repeat split.
  - destruct (23 <? List.length f)%nat.
    + do 2 bind_step Emotion. injection Emotion as <- <-.
      repeat split; first [ reflexivity | assumption ].
    + injection Emotion as <- <-. repeat split.
  - destruct (27 <? List.length f)%nat.
    + assumption.
    + injection Ename as <-. reflexivity.
Qed.

End Line.

(** ** The reference runtime meets what the properties assume *)

Lemma digit_not_space (c : ascii) : Py.is_digit c = true -> Py.is_space c = false.
Proof.
  unfold Py.is_digit, Py.is_space. intros H.
  apply andb_prop in H as [H1 H2]. apply N.leb_le in H1, H2.
  repeat match goal with
         | |- _ || _ = false => apply orb_false_intro
         | |- _ && _ = false => apply andb_false_iff
         end;
    first [ apply N.eqb_neq; lia | right; apply N.leb_gt; lia ].
Qed.

Lemma rstrip_digits (p : string) :
  Py.all_digits p = true -> Py.rstrip_by Py.is_space p = p.
Proof.
  induction p as [ | d p IH ]; simpl; intros H; [ reflexivity | ].
  apply andb_prop in H as [Hd Hp].
  rewrite (IH Hp), (digit_not_space d Hd). destruct p; reflexivity.
Qed.

Lemma strip_digits (p : string) : Py.all_digits p = true -> Py.strip p = p.
Proof.
  intros H. unfold Py.strip, Py.strip_by.
  destruct p as [ | d p ]; [ reflexivity | ].
  cbn [Py.lstrip_by].
  assert (Hd : Py.is_digit d = true) by (simpl in H; apply andb_prop in H; tauto).
  rewrite (digit_not_space d Hd). apply rstrip_digits, H.
Qed.

Lemma digit_not_literal_space (c : ascii) :
  Py.is_digit c = true -> Py.is_literal_space c = false.
Proof.
  unfold Py.is_digit, Py.is_literal_space. intros H.
  apply andb_prop in H as [H1 H2]. apply N.leb_le in H1, H2.
  repeat match goal with
         | |- _ || _ = false => apply orb_false_intro
         | |- _ && _ = false => apply andb_false_iff
         end;
    first [ apply N.eqb_neq; lia | right; apply N.leb_gt; lia ].
Qed.

Lemma rstrip_literal_digits (p : string) :
  Py.all_digits p = true -> Py.rstrip_by Py.is_literal_space p = p.
Proof.
  induction p as [ | d p IH ]; simpl; intros H; [ reflexivity | ].
  apply andb_prop in H as [Hd Hp].
  rewrite (IH Hp), (digit_not_literal_space d Hd). destruct p; reflexivity.
Qed.

Lemma strip_literal_digits (p : string) :
  Py.all_digits p = true -> Py.strip_by Py.is_literal_space p = p.
Proof.
  intros H. unfold Py.strip_by.
  destruct p as [ | d p ]; [ reflexivity | ].
  cbn [Py.lstrip_by].
  assert (Hd : Py.is_digit d = true) by (simpl in H; apply andb_prop in H; tauto).
  rewrite (digit_not_literal_space d Hd). apply rstrip_literal_digits, H.
Qed.

Lemma reference_float_reads_digits : float_reads_digits Reference.runtime.
Proof.
  intros s Hs H. cbn [float_of_str Reference.runtime].
  unfold Reference.float_of_str. rewrite (strip_literal_digits s H).
  destruct s as [ | d p ]; [ congruence | ].
  assert (Hd : Py.is_digit d = true) by (simpl in H; apply andb_prop in H; tauto).
  destruct (Ascii.eqb_spec d "-") as [-> | _]; [ discriminate Hd | ].
  destruct (Ascii.eqb_spec d "+") as [-> | _]; [ discriminate Hd | ].
  cbn [snd fst]. rewrite H. reflexivity.
Qed.

Lemma reference_parse_date_reads_timestamps :
  parse_date_reads_timestamps Reference.runtime.
Proof.
  intros s Hlen Hdigits Hvalid. cbn [parse_date Reference.runtime].
  unfold Reference.parse_date.
  rewrite Hlen, Hdigits, Hvalid. reflexivity.
Qed.

(** ** Lines that decode *)

Lemma int_digits_of_digits (p : string) (acc : Z) (count : nat) :
  Py.all_digits p = true ->
  Py.int_digits p acc count true
  = Some (Py.decimal_from acc p, (count + String.length p)%nat, EmptyString).
Proof.
  revert acc count.
  induction p as [ | c p IH ]; intros acc count H;
    cbn [Py.int_digits Py.decimal_from String.length].
  - rewrite Nat.add_0_r. reflexivity.
  - cbn [Py.all_digits] in H. apply andb_prop in H as [Hc Hp].
    rewrite Hc, (IH _ _ Hp). rewrite Nat.add_succ_r. reflexivity.
Qed.

(** [int] reads a string of decimal digits, of no more than it accepts, as
    the number it writes. *)
Lemma int_of_digits (p : string) :
  p <> EmptyString -> Py.all_digits p = true ->
  (String.length p <= Py.int_max_str_digits)%nat ->
  Py.int p = Ok (Py.decimal p).
Proof.
  intros Hp H Hlen. unfold Py.int. rewrite (strip_literal_digits p H).
  destruct p as [ | c p ]; [ congruence | ].
  assert (Hc : Py.is_digit c = true)
    by (cbn [Py.all_digits] in H; apply andb_prop in H; tauto).
  assert (Hrest : Py.all_digits p = true)
    by (cbn [Py.all_digits] in H; apply andb_prop in H; tauto).
  destruct (Ascii.eqb_spec c "-") as [-> | _]; [ discriminate Hc | ].
  destruct (Ascii.eqb_spec c "+") as [-> | _]; [ discriminate Hc | ].
  cbn [snd fst Py.int_digits]. rewrite Hc.
  rewrite (int_digits_of_digits p _ 1 Hrest).
  cbn [String.length] in Hlen.
  replace (Py.int_max_str_digits <? 1 + String.length p)%nat with false
    by (symmetry; apply Nat.ltb_ge; lia).
  reflexivity.
Qed.

Lemma reference_convert_value_reads_digits :
  convert_value_reads_digits Reference.runtime.
Proof.
  intros s Hs H Hlen. cbn [convert_value Reference.runtime Reference.convert_value].
  rewrite (int_of_digits s Hs H Hlen). reflexivity.
Qed.

Lemma reference_convert_value_keeps_strings :
  convert_value_keeps_strings Reference.runtime.
Proof. intros s. reflexivity. Qed.

Section Decodes.

Context {R : Runtime}.

(** A cell of decimal digits, with a [convert_value] that reads them. *)
Lemma normalize_digits (s : string) :
  convert_value_reads_digits R ->
  s <> EmptyString -> Py.all_digits s = true ->
  (String.length s <= Py.int_max_str_digits)%nat ->
  normalize_atcf_value (Plain (VStr s)) TInt None = Ok (VInt (Py.decimal s)).
Proof.
  intros Hconvert Hs H Hlen. unfold normalize_atcf_value.
  destruct s as [ | c s ]; [ congruence | ].
  cbn [isna is_empty_str orb negb bind].
  exact (Hconvert _ Hs H Hlen).
Qed.

(** The time the rule gives, for fields that are there and read. *)
Lemma decode_datetime_of_fields (f : list string) (record_type : string)
    (base hours_field : string) (start : Py.datetime) (hours : Z) :
  Py.item f 2 = Ok base ->
  Py.item f 5 = Ok hours_field ->
  parse_date (base ++ minute_component f record_type) = Ok start ->
  Py.int hours_field = Ok hours ->
  decode_datetime f record_type
  = (if hours =? 0 then Ok start else Py.add_hours start hours).
Proof.
  intros Hbase Hhf Hstart Hhours. unfold decode_datetime.
  assert (Hminutes :
            (if String.eqb record_type "BEST"
             then minute_field <- Py.item f 3 ;;
                  Ok (if (0 <? String.length minute_field)%nat
                      then minute_field else "00")
             else Ok "00")
            = Ok (minute_component f record_type)).
  { unfold minute_component, Py.item.
    pose proof (item_within _ _ _ Hhf) as Hlen.
    destruct (nth_error f 3) as [ m | ] eqn:Em;
      [ | apply nth_error_None in Em; lia ].
    destruct (String.eqb record_type "BEST"); [ | reflexivity ].
    cbn [bind andb]. destruct m; reflexivity. }
  rewrite Hminutes. cbn [bind]. rewrite Hbase. cbn [bind].
  rewrite Hstart. cbn [bind]. rewrite Hhf. cbn [bind].
  rewrite Hhours. reflexivity.
Qed.

(** A line of seventeen fields, each of which decodes, gives the record of
    what they decode to. *)
Lemma read_atcf_line_of_17_fields (line : string)
    (f0 f1 f2 f3 f4 f5 f6 f7 f8 f9 f10 f11 f12 f13 f14 f15 f16 : string)
    (d : Py.datetime) (y : float) (v c8 c9 c11 c13 c14 c15 c16 : scalar) :
  fields line
  = [f0; f1; f2; f3; f4; f5; f6; f7; f8; f9; f10; f11; f12; f13; f14; f15; f16] ->
  decode_datetime (fields line) f4 = Ok d ->
  decode_latitude f6 = Ok y ->
  decode_longitude f7 = Ok v ->
  normalize_atcf_value (Plain (VStr f8)) TInt None = Ok c8 ->
  normalize_atcf_value (Plain (VStr f9)) TInt None = Ok c9 ->
  normalize_atcf_value (Plain (VStr f11)) TInt None = Ok c11 ->
  normalize_atcf_value (Plain (VStr f13)) TInt None = Ok c13 ->
  normalize_atcf_value (Plain (VStr f14)) TInt None = Ok c14 ->
  normalize_atcf_value (Plain (VStr f15)) TInt None = Ok c15 ->
  normalize_atcf_value (Plain (VStr f16)) TInt None = Ok c16 ->
  read_atcf_line line
  = Ok {| basin := f0; storm_number := f1; record_type := f4; datetime := d;
          latitude := y; longitude := v;
          max_sustained_wind_speed := c8; central_pressure := c9;
          development_level := f10; isotach := c11; quadrant := f12;
          radius_for_NEQ := c13; radius_for_SEQ := c14;
          radius_for_SWQ := c15; radius_for_NWQ := c16;
          background_pressure := VFloat nan;
          radius_of_last_closed_isobar := VFloat nan;
          radius_of_maximum_winds := VFloat nan;
          direction := VFloat nan; speed := VFloat nan;
          name := EmptyString |}.
Proof.
  intros Hf Hd Hy Hv H8 H9 H11 H13 H14 H15 H16.
  unfold read_atcf_line. cbv zeta. rewrite Hf in Hd |- *.
  unfold int_cell.
  cbn [Py.item nth_error bind]. rewrite Hd. cbn [bind].
  rewrite Hy. cbn [bind]. rewrite Hv. cbn [bind].
  rewrite H8. cbn [bind]. rewrite H9. cbn [bind].
  rewrite H11. cbn [bind except_ValueError].
  rewrite H13. cbn [bind]. rewrite H14. cbn [bind].
  rewrite H15. cbn [bind]. rewrite H16. cbn [bind].
  reflexivity.
Qed.

(** The time of a line of 2005-08-29 12h, for a [parse_date] that reads
    twelve digits. *)
Lemma decode_datetime_of_2005082912 (f : list string)
    (record_type hours_field minutes : string) (hours : Z) :
  parse_date_reads_timestamps R ->
  Py.item f 2 = Ok "2005082912" ->
  Py.item f 5 = Ok hours_field ->
  minute_component f record_type = minutes ->
  String.length minutes = 2%nat ->
  Py.all_digits minutes = true ->
  Py.decimal minutes <= 59 ->
  Py.int hours_field = Ok hours ->
  decode_datetime f record_type
  = (if hours =? 0 then Ok (at_minute 2005 8 29 12 (Py.decimal minutes))
     else Py.add_hours (at_minute 2005 8 29 12 (Py.decimal minutes)) hours).
Proof.
  intros Hparse Hbase Hhf Hminutes Hlen Hdigits Hbound Hhours.
  destruct minutes as [ | a [ | b [ | ] ] ]; try discriminate Hlen.
  assert (Hstart : parse_date ("2005082912" ++ minute_component f record_type)
                   = Ok (at_minute 2005 8 29 12
                           (Py.decimal (String a (String b EmptyString))))).
  { rewrite Hminutes. cbn [append].
    rewrite Hparse; [ reflexivity | reflexivity | exact Hdigits | ].
    pose proof (decimal_nonneg _ Hdigits) as Hpos.
    unfold valid_datetime, timestamp_fields.
    cbn [Py.year Py.month Py.day Py.hour Py.minute substring].
    change (Py.decimal "2005") with 2005. change (Py.decimal "08") with 8.
    change (Py.decimal "29") with 29. change (Py.decimal "12") with 12.
    change (Py.days_in_month 2005 8) with 31.
    cbn [Z.leb Z.compare Pos.compare Pos.compare_cont andb].
    apply andb_true_intro. split; apply Z.leb_le; lia. }
  exact (decode_datetime_of_fields f record_type _ _ _ _ Hbase Hhf Hstart Hhours).
Qed.

(** A line of the worked examples decodes when its time and its coordinates
    do and [convert_value] reads the digits of its integer fields. *)
Lemma worked_line_decodes (line f3 f4 f5 f6 f7 : string)
    (d : Py.datetime) (y : float) (v : scalar) :
  convert_value_reads_digits R ->
  fields line
  = ["AL"; "09"; "2005082912"; f3; f4; f5; f6; f7; "65"; "1000"; "TS"; "34";
     "NEQ"; "120"; "90"; "60"; "90"] ->
  decode_datetime (fields line) f4 = Ok d ->
  decode_latitude f6 = Ok y ->
  decode_longitude f7 = Ok v ->
  exists r,
    read_atcf_line line = Ok r
    /\ record_type r = f4 /\ datetime r = d
    /\ latitude r = y /\ longitude r = v.
Proof.
  intros Hconvert Hf Hd Hy Hv.
  eexists. split.
  - eapply (read_atcf_line_of_17_fields line); [ exact Hf | exact Hd | exact Hy | exact Hv | .. ];
      apply (normalize_digits _ Hconvert);
      first [ discriminate | reflexivity | apply Nat.leb_le; reflexivity ].
  - repeat split.
Qed.

End Decodes.

(** ** Coordinates *)

Section Coordinates.

Context {R : Runtime}.

(** A field of decimal digits and a hemisphere letter, when [float] reads
    the digits as the number they write. *)
Lemma digit_fields_decode :
  float_reads_digits R ->
  forall p, p <> EmptyString -> Py.all_digits p = true ->
    let x := Py.Z2float (Py.decimal p) in
    decode_latitude (p ++ "N") = Ok (x * 0.1)%float
    /\ decode_latitude (p ++ "S") = Ok (x * -1 * 0.1)%float
    /\ decode_longitude (p ++ "E") = Ok (VFloat (x * 0.1)%float)
    /\ decode_longitude (p ++ "W") = Ok (VFloat (x * -0.1)%float).
Proof.
  intros Hfloat p Hp H x.
  rewrite decode_latitude_N, decode_latitude_S, decode_longitude_E,
    decode_longitude_W by (apply digits_without; [ reflexivity | exact H ]).
  rewrite (Hfloat p Hp H). repeat split.
Qed.

(** The coordinates of a record are what its two fields decode to. *)
Lemma record_coordinates (line : string) (r : record) (lat lon : string) :
  read_atcf_line line = Ok r ->
  Py.item (fields line) 6 = Ok lat ->
  Py.item (fields line) 7 = Ok lon ->
  decode_latitude lat = Ok (latitude r)
  /\ decode_longitude lon = Ok (longitude r).
Proof.
  intros Hr Hlat Hlon.
  destruct (read_atcf_line_Ok line r Hr)
    as (_ & _ & _ & _ & (s6 & E6 & L6) & (s7 & E7 & L7) & _).
  rewrite Hlat in E6. rewrite Hlon in E7.
  injection E6 as <-. injection E7 as <-. split; assumption.
Qed.

End Coordinates.

(** C4.  A latitude field that is a number and then N decodes to a tenth of
    the number read by [float], one that ends in S to a tenth of the number
    times minus one; a longitude field that ends in E decodes to a tenth of
    the number, one that ends in W to the number times minus a tenth.  A
    record holds what the two fields decode to.  On decimal digits, which
    [float] reads exactly, 241N gives 24.1, 241S gives -24.1, 0800W gives
    -80.0 and 0800E gives 80.0; and with libraries that also read the time
    and the integer fields of the line, the worked line is decoded to a
    record at 24.1 and -80.0, and the same line in the south and the east to
    one at -24.1 and 80.0. *)
Theorem coordinates_decode_by_hemisphere (R : Runtime) :
  float_reads_digits R ->
  (forall p, Py.contains "N" p = false -> Py.contains "S" p = false ->
     decode_latitude (p ++ "N") = (x <- float_of_str p ;; Ok (x * 0.1)%float)
     /\ decode_latitude (p ++ "S")
        = (x <- float_of_str p ;; Ok (x * -1 * 0.1)%float))
  /\ (forall p, Py.contains "E" p = false -> Py.contains "W" p = false ->
        decode_longitude (p ++ "E")
        = (x <- float_of_str p ;; Ok (VFloat (x * 0.1)%float))
        /\ decode_longitude (p ++ "W")
           = (x <- float_of_str p ;; Ok (VFloat (x * -0.1)%float)))
  /\ (forall p, p <> EmptyString -> Py.all_digits p = true ->
        let x := Py.Z2float (Py.decimal p) in
        decode_latitude (p ++ "N") = Ok (x * 0.1)%float
        /\ decode_latitude (p ++ "S") = Ok (x * -1 * 0.1)%float
        /\ decode_longitude (p ++ "E") = Ok (VFloat (x * 0.1)%float)
        /\ decode_longitude (p ++ "W") = Ok (VFloat (x * -0.1)%float))
  /\ (forall line r lat lon, read_atcf_line line = Ok r ->
        Py.item (fields line) 6 = Ok lat -> Py.item (fields line) 7 = Ok lon ->
        decode_latitude lat = Ok (latitude r)
        /\ decode_longitude lon = Ok (longitude r))
  /\ decode_latitude "241N" = Ok 24.1%float
  /\ decode_latitude "241S" = Ok (-24.1)%float
  /\ decode_longitude "0800W" = Ok (VFloat (-80)%float)
  /\ decode_longitude "0800E" = Ok (VFloat 80%float)
  /\ (parse_date_reads_timestamps R -> convert_value_reads_digits R ->
      (exists r, read_atcf_line example_line = Ok r
                 /\ latitude r = 24.1%float
                 /\ longitude r = VFloat (-80)%float)
      /\ (exists r, read_atcf_line south_east_line = Ok r
                    /\ latitude r = (-24.1)%float
                    /\ longitude r = VFloat 80%float)).
Proof.
  intros Hfloat.
  pose proof (digit_fields_decode Hfloat) as Hdigits.
  destruct (Hdigits "241") as (HN & HS & _ & _); [ discriminate | reflexivity | ].
  destruct (Hdigits "0800") as (_ & _ & HE & HW); [ discriminate | reflexivity | ].
  assert (H241N : decode_latitude "241N" = Ok 24.1%float)
    by (etransitivity; [ exact HN | vm_compute; reflexivity ]).
  assert (H241S : decode_latitude "241S" = Ok (-24.1)%float)
    by (etransitivity; [ exact HS | vm_compute; reflexivity ]).
  assert (H0800W : decode_longitude "0800W" = Ok (VFloat (-80)%float))
    by (etransitivity; [ exact HW | vm_compute; reflexivity ]).
  assert (H0800E : decode_longitude "0800E" = Ok (VFloat 80%float))
    by (etransitivity; [ exact HE | vm_compute; reflexivity ]).
  split; [ | split; [ | split; [ exact Hdigits | split; [ exact record_coordinates | ] ] ] ].
  - intros p HpN HpS. split.
    + apply decode_latitude_N, HpN.
    + apply decode_latitude_S; assumption.
  - intros p HpE HpW. split.
    + apply decode_longitude_E, HpE.
    + apply decode_longitude_W; assumption.
  - split; [ exact H241N | ]. split; [ exact H241S | ].
    split; [ exact H0800W | ]. split; [ exact H0800E | ].
    intros Hparse Hconvert.
    assert (Htime : forall f, Py.item f 2 = Ok "2005082912" ->
                      Py.item f 5 = Ok "0" -> nth_error f 3 = Some EmptyString ->
                      decode_datetime f "BEST" = Ok (at_minute 2005 8 29 12 0)).
    { intros f H2 H5 H3.
      rewrite (decode_datetime_of_2005082912 f "BEST" "0" "00" 0 Hparse H2 H5);
        [ reflexivity | | reflexivity | reflexivity | vm_compute; discriminate
          | reflexivity ].
      unfold minute_component. rewrite H3. reflexivity. }
    split.
    + destruct (worked_line_decodes example_line EmptyString "BEST" "0"
                  "241N" "0800W" _ _ _ Hconvert eq_refl
                  (Htime (fields example_line) eq_refl eq_refl eq_refl)
                  H241N H0800W)
        as (r & Hr & _ & _ & Hlat & Hlon).
      exists r. repeat split; assumption.
    + destruct (worked_line_decodes south_east_line EmptyString "BEST" "0"
                  "241S" "0800E" _ _ _ Hconvert eq_refl
                  (Htime (fields south_east_line) eq_refl eq_refl eq_refl)
                  H241S H0800E)
        as (r & Hr & _ & _ & Hlat & Hlon).
      exists r. repeat split; assumption.
Qed.

(** The theorem with the reference runtime: the two fields, and the two
    lines decoded. *)
Lemma coordinates_decode_by_hemisphere_witness :
  float_reads_digits Reference.runtime
  /\ @decode_latitude Reference.runtime "241N" = Ok 24.1%float
  /\ @decode_longitude Reference.runtime "0800W" = Ok (VFloat (-80)%float)
  /\ (exists r, @read_atcf_line Reference.runtime example_line = Ok r
                /\ latitude r = 24.1%float
                /\ longitude r = VFloat (-80)%float)
  /\ (exists r, @read_atcf_line Reference.runtime south_east_line = Ok r
                /\ latitude r = (-24.1)%float
                /\ longitude r = VFloat 80%float).
Proof.
  split; [ exact reference_float_reads_digits | ].
  destruct (coordinates_decode_by_hemisphere Reference.runtime
              reference_float_reads_digits)
    as (_ & _ & _ & _ & HN & _ & HW & _ & Hlines).
  split; [ exact HN | ]. split; [ exact HW | ].
  exact (Hlines reference_parse_date_reads_timestamps
           reference_convert_value_reads_digits).
Defined.

(** C9.  A longitude field with neither an E nor a W in it raises nothing
    when it is decoded, and the record holds the field itself, as the
    string it is in the stripped fields of the line: not a number, not
    scaled, without a sign. *)
Theorem longitude_without_hemisphere_is_kept (R : Runtime)
    (line : string) (r : record) (lon : string) :
  read_atcf_line line = Ok r ->
  Py.item (fields line) 7 = Ok lon ->
  Py.contains "E" lon = false ->
  Py.contains "W" lon = false ->
  decode_longitude lon = Ok (VStr lon) /\ longitude r = VStr lon.
Proof.
  intros Hr Hlon HE HW.
  assert (Hkept : decode_longitude lon = Ok (VStr lon)).
  { unfold decode_longitude. rewrite HE, HW. reflexivity. }
  split; [ exact Hkept | ].
  destruct (read_atcf_line_Ok line r Hr)
    as (_ & _ & _ & _ & _ & (s7 & E7 & L7) & _).
  rewrite Hlon in E7. injection E7 as <-.
  rewrite Hkept in L7. injection L7 as <-. reflexivity.
Qed.

(** The theorem at the example without a letter after the longitude. *)
Lemma longitude_without_hemisphere_is_kept_witness :
  exists r,
    @read_atcf_line Reference.runtime line_without_hemisphere = Ok r
    /\ longitude r = VStr "0800".
Proof.
  eexists. split.
  - vm_compute. reflexivity.
  - refine (proj2 (longitude_without_hemisphere_is_kept Reference.runtime
                     line_without_hemisphere _ "0800" _ _ _ _));
      vm_compute; reflexivity.
Defined.

Lemma tenths_within_90 : forallb (tenths_within 90) (seq 0 901) = true.
Proof. vm_compute. reflexivity. Qed.

Lemma tenths_within_180 : forallb (tenths_within 180) (seq 0 1801) = true.
Proof. vm_compute. reflexivity. Qed.

Lemma tenths_within_upto (limit : float) (bound : nat) (z : Z) :
  forallb (tenths_within limit) (seq 0 (S bound)) = true ->
  0 <= z <= Z.of_nat bound ->
  let x := Py.Z2float z in
  within limit (x * 0.1)%float = true
  /\ within limit (x * -1 * 0.1)%float = true
  /\ within limit (x * -0.1)%float = true.
Proof.
  intros Hall Hz x.
  assert (Hin : In (Z.to_nat z) (seq 0 (S bound))) by (apply in_seq; lia).
  pose proof (proj1 (forallb_forall _ _) Hall _ Hin) as H.
  unfold tenths_within in H. rewrite Z2Nat.id in H by lia.
  apply andb_prop in H as [H H3]. apply andb_prop in H as [H1 H2].
  repeat split; assumption.
Qed.

(** C6, as stated, fails: a latitude field 999N decodes to 99.9 and a
    longitude field 1900W to -190.0, and the record is returned. *)
Lemma coordinates_out_of_range :
  exists r x,
    @read_atcf_line Reference.runtime line_out_of_range = Ok r
    /\ (latitude r <=? 90)%float = false
    /\ longitude r = VFloat x
    /\ (-180 <=? x)%float = false.
Proof.
  eexists. eexists. split; [ vm_compute; reflexivity | ].
  split; [ vm_compute; reflexivity | ].
  split; [ vm_compute; reflexivity | vm_compute; reflexivity ].
Qed.

(** C6, amended.  The decoder checks no range.  The latitude of a record is
    within -90 and 90 when the latitude field is decimal digits that write
    at most 900 and then N or S, whatever the longitude field is; and its
    longitude is a number within -180 and 180 when the longitude field is
    decimal digits that write at most 1800 and then E or W, whatever the
    latitude field is. *)
Theorem coordinates_within_range_of_small_fields (R : Runtime)
    (line : string) (r : record) :
  float_reads_digits R ->
  read_atcf_line line = Ok r ->
  (forall p ns,
     Py.item (fields line) 6 = Ok (p ++ String ns EmptyString) ->
     ns = "N"%char \/ ns = "S"%char ->
     p <> EmptyString -> Py.all_digits p = true -> Py.decimal p <= 900 ->
     within 90 (latitude r) = true)
  /\ (forall q ew,
        Py.item (fields line) 7 = Ok (q ++ String ew EmptyString) ->
        ew = "E"%char \/ ew = "W"%char ->
        q <> EmptyString -> Py.all_digits q = true -> Py.decimal q <= 1800 ->
        exists x, longitude r = VFloat x /\ within 180 x = true).
Proof.
  intros Hfloat Hr.
  pose proof (digit_fields_decode Hfloat) as Hdigits.
  destruct (read_atcf_line_Ok line r Hr)
    as (_ & _ & _ & _ & (s6 & E6 & L6) & (s7 & E7 & L7) & _).
  split.
  - intros p ns Hlat Hns Hp Hpd Hpb.
    rewrite Hlat in E6. injection E6 as <-.
    destruct (Hdigits p Hp Hpd) as (HN & HS & _ & _).
    destruct (tenths_within_upto 90 900 (Py.decimal p) tenths_within_90)
      as (PN & PS & _); [ pose proof (decimal_nonneg p Hpd); lia | ].
    destruct Hns as [-> | ->].
    + rewrite HN in L6. injection L6 as <-. exact PN.
    + rewrite HS in L6. injection L6 as <-. exact PS.
  - intros q ew Hlon Hew Hq Hqd Hqb.
    rewrite Hlon in E7. injection E7 as <-.
    destruct (Hdigits q Hq Hqd) as (_ & _ & HE & HW).
    destruct (tenths_within_upto 180 1800 (Py.decimal q) tenths_within_180)
      as (QE & _ & QW); [ pose proof (decimal_nonneg q Hqd); lia | ].
    destruct Hew as [-> | ->].
    + rewrite HE in L7. injection L7 as <-.
      eexists. split; [ reflexivity | exact QE ].
    + rewrite HW in L7. injection L7 as <-.
      eexists. split; [ reflexivity | exact QW ].
Qed.

(** The theorem at the example, 241N and 0800W; at the line with no letter
    after the longitude, for the latitude alone; and at the line of 999N and
    0800W, for the longitude alone. *)
Lemma coordinates_within_range_of_small_fields_witness :
  (exists r,
     @read_atcf_line Reference.runtime example_line = Ok r
     /\ within 90 (latitude r) = true
     /\ exists x, longitude r = VFloat x /\ within 180 x = true)
  /\ (exists r,
        @read_atcf_line Reference.runtime line_without_hemisphere = Ok r
        /\ longitude r = VStr "0800"
        /\ within 90 (latitude r) = true)
  /\ (exists r,
        @read_atcf_line Reference.runtime line_far_north = Ok r
        /\ within 90 (latitude r) = false
        /\ exists x, longitude r = VFloat x /\ within 180 x = true).
Proof.
  split; [ | split ].
  - eexists. split; [ vm_compute; reflexivity | ].
    destruct (coordinates_within_range_of_small_fields Reference.runtime
                example_line _ reference_float_reads_digits eq_refl)
      as [Hlat Hlon].
    split.
    + refine (Hlat "241" "N"%char _ (or_introl eq_refl) _ _ _);
        first [ discriminate | vm_compute; reflexivity
              | apply Z.leb_le; vm_compute; reflexivity ].
    + refine (Hlon "0800" "W"%char _ (or_intror eq_refl) _ _ _);
        first [ discriminate | vm_compute; reflexivity
              | apply Z.leb_le; vm_compute; reflexivity ].
  - eexists. split; [ vm_compute; reflexivity | ].
    split; [ vm_compute; reflexivity | ].
    refine (proj1 (coordinates_within_range_of_small_fields Reference.runtime
                     line_without_hemisphere _ reference_float_reads_digits
                     eq_refl)
              "241" "N"%char _ (or_introl eq_refl) _ _ _);
      first [ discriminate | vm_compute; reflexivity
            | apply Z.leb_le; vm_compute; reflexivity ].
  - eexists. split; [ vm_compute; reflexivity | ].
    split; [ vm_compute; reflexivity | ].
    refine (proj2 (coordinates_within_range_of_small_fields Reference.runtime
                     line_far_north _ reference_float_reads_digits
                     eq_refl)
              "0800" "W"%char _ (or_intror eq_refl) _ _ _);
      first [ discriminate | vm_compute; reflexivity
            | apply Z.leb_le; vm_compute; reflexivity ].
Defined.

(** ** The time of a record *)

Section Time.

Context {R : Runtime}.

Lemma decode_datetime_Ok (f : list string) (record_type : string) (d : Py.datetime) :
  decode_datetime f record_type = Ok d ->
  exists base hours_field start hours,
    Py.item f 2 = Ok base
    /\ Py.item f 5 = Ok hours_field
    /\ parse_date (base ++ minute_component f record_type) = Ok start
    /\ Py.int hours_field = Ok hours
    /\ (if hours =? 0 then d = start else Py.add_hours start hours = Ok d).
Proof.
  unfold decode_datetime. intros H.
  bind_as H as minutes Eminutes.
  bind_as H as base Ebase.
  bind_as H as start Estart.
  bind_as H as hours_field Ehours_field.
  bind_as H as hours Ehours.
  exists base, hours_field, start, hours.
  assert (Hminutes : minutes = minute_component f record_type).
  { unfold minute_component.
    destruct (String.eqb record_type "BEST").
    - bind_as Eminutes as m Em. injection Eminutes as <-.
      apply item_nth_error in Em. rewrite Em.
      destruct m; reflexivity.
    - injection Eminutes as <-. destruct (nth_error f 3); reflexivity. }
  subst minutes. repeat split; try reflexivity; try assumption.
  destruct (hours =? 0).
  - injection H as <-. reflexivity.
  - exact H.
Qed.

End Time.

(** C5.  The time of a record is the third field completed with the
    minutes, read by [parse_date], and the hours of the sixth field, read as
    an integer, added when they are not zero.  The minutes are the fourth
    field when the record type is BEST and that field is not empty, and 00
    otherwise.  The rule is what a line that decodes went through, and what
    fields that are there and read give.  With a [parse_date] that reads
    twelve digits as year, month, day, hour and minute, 2005082912 with OFCL
    and 12 hours is 2005-08-30 00:00, with 0 hours 2005-08-29 12:00, and
    with BEST, minutes 30 and 0 hours it is 2005-08-29 12:30; and with
    libraries that also read the coordinates and the integer fields, the
    worked line as a forecast of OFCL for 12 hours later and the worked line
    with 30 minutes are decoded to records of these times. *)
Theorem record_datetime (R : Runtime) :
  parse_date_reads_timestamps R ->
  (forall line r, read_atcf_line line = Ok r ->
     let f := fields line in
     (exists base hours_field start hours,
        Py.item f 2 = Ok base
        /\ Py.item f 5 = Ok hours_field
        /\ parse_date (base ++ minute_component f (record_type r)) = Ok start
        /\ Py.int hours_field = Ok hours
        /\ (if hours =? 0 then datetime r = start
            else Py.add_hours start hours = Ok (datetime r)))
     /\ (Py.item f 2 = Ok "2005082912" -> record_type r = "OFCL" ->
         (Py.item f 5 = Ok "12" -> datetime r = at_minute 2005 8 30 0 0)
         /\ (Py.item f 5 = Ok "0" -> datetime r = at_minute 2005 8 29 12 0))
     /\ (Py.item f 2 = Ok "2005082912" -> record_type r = "BEST" ->
         Py.item f 3 = Ok "30" -> Py.item f 5 = Ok "0" ->
         datetime r = at_minute 2005 8 29 12 30))
  /\ (forall f record_type base hours_field start hours,
        Py.item f 2 = Ok base ->
        Py.item f 5 = Ok hours_field ->
        parse_date (base ++ minute_component f record_type) = Ok start ->
        Py.int hours_field = Ok hours ->
        decode_datetime f record_type
        = (if hours =? 0 then Ok start else Py.add_hours start hours))
  /\ (forall f, Py.item f 2 = Ok "2005082912" ->
        (Py.item f 5 = Ok "12" ->
         decode_datetime f "OFCL" = Ok (at_minute 2005 8 30 0 0))
        /\ (Py.item f 5 = Ok "0" ->
            decode_datetime f "OFCL" = Ok (at_minute 2005 8 29 12 0))
        /\ (Py.item f 3 = Ok "30" -> Py.item f 5 = Ok "0" ->
            decode_datetime f "BEST" = Ok (at_minute 2005 8 29 12 30)))
  /\ (float_reads_digits R -> convert_value_reads_digits R ->
      (exists r, read_atcf_line ofcl_line_after_12_hours = Ok r
                 /\ record_type r = "OFCL"
                 /\ datetime r = at_minute 2005 8 30 0 0)
      /\ (exists r, read_atcf_line best_line_with_minutes = Ok r
                    /\ record_type r = "BEST"
                    /\ datetime r = at_minute 2005 8 29 12 30)).
Proof.
  intros Hparse.
  assert (Hexamples :
            forall f, Py.item f 2 = Ok "2005082912" ->
              (Py.item f 5 = Ok "12" ->
               decode_datetime f "OFCL" = Ok (at_minute 2005 8 30 0 0))
              /\ (Py.item f 5 = Ok "0" ->
                  decode_datetime f "OFCL" = Ok (at_minute 2005 8 29 12 0))
              /\ (Py.item f 3 = Ok "30" -> Py.item f 5 = Ok "0" ->
                  decode_datetime f "BEST" = Ok (at_minute 2005 8 29 12 30))).
  { intros f H2.
    assert (Hofcl : minute_component f "OFCL" = "00")
      by (unfold minute_component; destruct (nth_error f 3); reflexivity).
    split; [ | split ].
    - intros H5.
      rewrite (decode_datetime_of_2005082912 f "OFCL" "12" "00" 12
                 Hparse H2 H5 Hofcl);
        [ vm_compute; reflexivity | reflexivity | reflexivity
          | vm_compute; discriminate | reflexivity ].
    - intros H5.
      rewrite (decode_datetime_of_2005082912 f "OFCL" "0" "00" 0
                 Hparse H2 H5 Hofcl);
        [ reflexivity | reflexivity | reflexivity
          | vm_compute; discriminate | reflexivity ].
    - intros H3 H5.
      rewrite (decode_datetime_of_2005082912 f "BEST" "0" "30" 0
                 Hparse H2 H5);
        [ reflexivity | | reflexivity | reflexivity
          | vm_compute; discriminate | reflexivity ].
      unfold minute_component. apply item_nth_error in H3. rewrite H3.
      reflexivity. }
  split; [ | split; [ | split; [ exact Hexamples | ] ] ].
  - intros line r Hr f.
    destruct (read_atcf_line_Ok line r Hr) as (_ & _ & _ & Hdatetime & _).
    fold f in Hdatetime.
    split; [ exact (decode_datetime_Ok f _ _ Hdatetime) | ].
    split.
    + intros Hbase Htype. rewrite Htype in Hdatetime.
      destruct (Hexamples f Hbase) as (H12 & H0 & _).
      split; intros H5.
      * rewrite (H12 H5) in Hdatetime. injection Hdatetime as <-. reflexivity.
      * rewrite (H0 H5) in Hdatetime. injection Hdatetime as <-. reflexivity.
    + intros Hbase Htype H3 H5. rewrite Htype in Hdatetime.
      destruct (Hexamples f Hbase) as (_ & _ & H30).
      rewrite (H30 H3 H5) in Hdatetime. injection Hdatetime as <-. reflexivity.
  - intros f record_type base hours_field start hours.
    apply decode_datetime_of_fields.
  - intros Hfloat Hconvert.
    destruct (digit_fields_decode Hfloat "241") as (HN & _);
      [ discriminate | reflexivity | ].
    destruct (digit_fields_decode Hfloat "0800") as (_ & _ & _ & HW);
      [ discriminate | reflexivity | ].
    split.
    + destruct (Hexamples (fields ofcl_line_after_12_hours) eq_refl)
        as (H12 & _).
      destruct (worked_line_decodes ofcl_line_after_12_hours EmptyString
                  "OFCL" "12" "241N" "0800W" _ _ _ Hconvert eq_refl
                  (H12 eq_refl) HN HW)
        as (r & Hr & Htype & Hd & _).
      exists r. repeat split; assumption.
    + destruct (Hexamples (fields best_line_with_minutes) eq_refl)
        as (_ & _ & H30).
      destruct (worked_line_decodes best_line_with_minutes "30"
                  "BEST" "0" "241N" "0800W" _ _ _ Hconvert eq_refl
                  (H30 eq_refl eq_refl) HN HW)
        as (r & Hr & Htype & Hd & _).
      exists r. repeat split; assumption.
Qed.

(** The theorem with the reference runtime: the forecast for 12 hours later
    and the line with 30 minutes, decoded. *)
Lemma record_datetime_witness :
  parse_date_reads_timestamps Reference.runtime
  /\ @decode_datetime Reference.runtime
       (fields ofcl_line_after_12_hours) "OFCL"
     = Ok (at_minute 2005 8 30 0 0)
  /\ (exists r,
        @read_atcf_line Reference.runtime ofcl_line_after_12_hours = Ok r
        /\ record_type r = "OFCL"
        /\ datetime r = at_minute 2005 8 30 0 0)
  /\ (exists r,
        @read_atcf_line Reference.runtime best_line_with_minutes = Ok r
        /\ record_type r = "BEST"
        /\ datetime r = at_minute 2005 8 29 12 30).
Proof.
  split; [ exact reference_parse_date_reads_timestamps | ].
  destruct (record_datetime Reference.runtime
              reference_parse_date_reads_timestamps)
    as (_ & _ & Hexamples & Hlines).
  split.
  - exact (proj1 (Hexamples (fields ofcl_line_after_12_hours) eq_refl) eq_refl).
  - exact (Hlines reference_float_reads_digits
             reference_convert_value_reads_digits).
Defined.

(** ** Normalization of a cell *)

(** C3, as stated, fails: the empty string comes back as the empty string,
    which [pandas.isna] does not count as missing. *)
Lemma empty_string_is_not_made_null :
  @normalize_atcf_value Reference.runtime (Plain (VStr EmptyString)) TInt None
  = Ok (VStr EmptyString)
  /\ isna (VStr EmptyString) = false.
Proof. split; reflexivity. Qed.

(** C3, amended.  [normalize_atcf_value] returns [None], a not-a-number and
    the empty string as they are, without converting them: the empty string
    stays the empty string.  For any other value, when a precision is given
    and the target is [int] or [float] (or [bool]), a string is first read
    by [float], the number is rounded to the precision and the result is
    converted to the target; without a precision, or for another target,
    the value is converted only.  The magnitude of a [Quantity] is treated
    as the bare value is. *)
Theorem normalize_atcf_value_cases (R : Runtime)
    (to_type : pytype) (round_digits : option Z) :
  normalize_atcf_value (Plain VNone) to_type round_digits = Ok VNone
  /\ (forall x, is_nan x = true ->
        normalize_atcf_value (Plain (VFloat x)) to_type round_digits
        = Ok (VFloat x))
  /\ normalize_atcf_value (Plain (VStr EmptyString)) to_type round_digits
     = Ok (VStr EmptyString)
  /\ (forall c s digits, is_int_or_float to_type = true ->
        normalize_atcf_value (Plain (VStr (String c s))) to_type (Some digits)
        = (x <- float_of_str (String c s) ;;
           rounded <- round (VFloat x) digits ;;
           convert_value rounded to_type))
  /\ (forall v digits, is_int_or_float to_type = true ->
        isna v = false -> (forall s, v <> VStr s) ->
        normalize_atcf_value (Plain v) to_type (Some digits)
        = (rounded <- round v digits ;; convert_value rounded to_type))
  /\ (forall v, isna v = false -> is_empty_str v = false ->
        round_digits = None \/ is_int_or_float to_type = false ->
        normalize_atcf_value (Plain v) to_type round_digits
        = convert_value v to_type)
  /\ (forall magnitude,
        normalize_atcf_value (Quantity magnitude) to_type round_digits
        = normalize_atcf_value (Plain magnitude) to_type round_digits).
Proof.
  repeat split.
  - intros x Hx. unfold normalize_atcf_value. cbn [isna]. rewrite Hx. reflexivity.
  - intros c s digits Htype. unfold normalize_atcf_value.
    cbn [isna is_empty_str orb negb]. rewrite Htype.
    destruct (float_of_str (String c s)); reflexivity.
  - intros v digits Htype Hna Hstr. unfold normalize_atcf_value.
    rewrite Hna, Htype.
    destruct v; try reflexivity. exfalso. eapply Hstr. reflexivity.
  - intros v Hna Hempty Hplain. unfold normalize_atcf_value.
    rewrite Hna, Hempty. cbn [orb negb].
    destruct Hplain as [-> | Htype]; [ reflexivity | ].
    rewrite Htype. destruct round_digits; reflexivity.
Qed.

(** ** The isotach *)

(** C1, on the code.  The line of the example with a blank isotach field is
    decoded: nothing is raised, and the isotach of the record is the empty
    string. *)
Theorem blank_isotach_is_decoded :
  Py.item (fields line_with_blank_isotach) 11 = Ok EmptyString
  /\ exists r,
       @read_atcf_line Reference.runtime line_with_blank_isotach = Ok r
       /\ isotach r = VStr EmptyString.
Proof.
  split; [ reflexivity | ].
  eexists. split; vm_compute; reflexivity.
Qed.

(** The same line with letters in the field is refused with the error that
    names the radial wind. *)
Lemma isotach_abc_is_refused :
  @read_atcf_line Reference.runtime line_with_isotach_abc = Err no_radial_wind.
Proof. vm_compute. reflexivity. Qed.

Section Isotach.

Context {R : Runtime}.

(** With any libraries, a blank isotach field gives the empty string. *)
Lemma blank_isotach_is_kept (line : string) (r : record) :
  read_atcf_line line = Ok r ->
  Py.item (fields line) 11 = Ok EmptyString ->
  isotach r = VStr EmptyString.
Proof.
  intros Hr H11.
  destruct (read_atcf_line_Ok line r Hr)
    as (_ & _ & _ & _ & _ & _ & _ & _ & _ & (s & Es & Hs) & _).
  rewrite H11 in Es. injection Es as <-.
  injection Hs as <-. reflexivity.
Qed.

(** A field that is not blank and that [convert_value] refuses with a
    [ValueError] gives no record. *)
Lemma refused_isotach_gives_no_record (line s : string) (why : value_error) :
  Py.item (fields line) 11 = Ok s ->
  s <> EmptyString ->
  convert_value (VStr s) TInt = Err (ValueError why) ->
  forall r, read_atcf_line line <> Ok r.
Proof.
  intros H11 Hs Hconvert r Hr.
  destruct (read_atcf_line_Ok line r Hr)
    as (_ & _ & _ & _ & _ & _ & _ & _ & _ & (s' & Es & Hiso) & _).
  rewrite H11 in Es. injection Es as <-.
  unfold normalize_atcf_value in Hiso.
  destruct s as [ | c s ]; [ congruence | ].
  cbn [isna is_empty_str orb negb bind] in Hiso.
  rewrite Hconvert in Hiso. discriminate Hiso.
Qed.

End Isotach.

(** ** The fields at the end of a line *)

(** C2, on the code.  A line of nineteen fields, which are more than
    eighteen, is not decoded: reading the twentieth raises [IndexError].  So
    is a line of twenty-four fields, which are more than twenty-three, at
    the twenty-sixth. *)
Theorem lines_of_19_and_24_fields_raise_IndexError :
  List.length (fields line_of_19_fields) = 19%nat
  /\ @read_atcf_line Reference.runtime line_of_19_fields = Err IndexError
  /\ List.length (fields line_of_24_fields) = 24%nat
  /\ @read_atcf_line Reference.runtime line_of_24_fields = Err IndexError.
Proof. repeat split; vm_compute; reflexivity. Qed.

Section Trailing.

Context {R : Runtime}.

Lemma int_cell_within (f : list string) (i : nat) (v : scalar) :
  int_cell f i = Ok v -> (i < List.length f)%nat.
Proof.
  unfold int_cell. intros H. bind_as H as s Es.
  exact (item_within f i s Es).
Qed.

(** With any libraries, a line of exactly nineteen fields, or of
    twenty-four to twenty-six, gives no record. *)
Lemma lines_that_give_no_record (line : string) (r : record) :
  read_atcf_line line = Ok r ->
  let n := List.length (fields line) in
  n <> 19%nat /\ ~ (24 <= n <= 26)%nat.
Proof.
  intros Hr n.
  destruct (read_atcf_line_Ok line r Hr)
    as (_ & _ & _ & _ & _ & _ & _ & _ & _ & _ & _ & _ & _ & _ & _
        & Houter & Hmotion & _).
  fold n in Houter, Hmotion. split.
  - intros Hn. rewrite Hn in Houter. cbn in Houter.
    destruct Houter as (_ & _ & H19). apply int_cell_within in H19.
    fold n in H19. lia.
  - intros Hn.
    destruct (Nat.ltb_spec 23 n) as [ _ | Hlt ]; [ | lia ].
    destruct Hmotion as (_ & H26). apply int_cell_within in H26.
    fold n in H26. lia.
Qed.

(** What does hold of the fields at the end: with twenty fields or more the
    three cells come from the fields 17 to 19, with eighteen or fewer they
    are the not-a-number; with twenty-seven or more the direction and the
    speed come from the fields 25 and 26, with twenty-three or fewer they
    are the not-a-number; the name is the field 27 of a line of more than
    twenty-seven, and else empty. *)
Lemma trailing_fields (line : string) (r : record) :
  read_atcf_line line = Ok r ->
  let f := fields line in
  ((20 <= List.length f)%nat ->
     int_cell f 17 = Ok (background_pressure r)
     /\ int_cell f 18 = Ok (radius_of_last_closed_isobar r)
     /\ int_cell f 19 = Ok (radius_of_maximum_winds r))
  /\ ((List.length f <= 18)%nat ->
        background_pressure r = VFloat nan
        /\ radius_of_last_closed_isobar r = VFloat nan
        /\ radius_of_maximum_winds r = VFloat nan)
  /\ ((27 <= List.length f)%nat ->
        int_cell f 25 = Ok (direction r) /\ int_cell f 26 = Ok (speed r))
  /\ ((List.length f <= 23)%nat ->
        direction r = VFloat nan /\ speed r = VFloat nan)
  /\ ((27 < List.length f)%nat -> Py.item f 27 = Ok (name r))
  /\ ((List.length f <= 27)%nat -> name r = EmptyString).
Proof.
  intros Hr f.
  destruct (read_atcf_line_Ok line r Hr)
    as (_ & _ & _ & _ & _ & _ & _ & _ & _ & _ & _ & _ & _ & _ & _
        & Houter & Hmotion & Hname).
  fold f in Houter, Hmotion, Hname.
  destruct (Nat.ltb_spec 18 (List.length f));
    destruct (Nat.ltb_spec 23 (List.length f));
    destruct (Nat.ltb_spec 27 (List.length f));
    repeat split; intros; first [ lia | tauto ].
Qed.

End Trailing.

(** ** The loop of [read_atcf] *)

Lemma mapM_In {A B} (f : A -> result B) (l : list A) (bs : list B) :
  mapM f l = Ok bs -> forall b, In b bs -> exists a, In a l /\ f a = Ok b.
Proof.
  revert bs. induction l as [ | a l IH ]; simpl; intros bs H b Hb.
  - injection H as <-. destruct Hb.
  - bind_as H as b0 Eb0. bind_as H as bs0 Ebs0. injection H as <-.
    destruct Hb as [<- | Hb].
    + exists a. split; [ left; reflexivity | exact Eb0 ].
    + destruct (IH bs0 eq_refl b Hb) as (a' & Ha' & Hf).
      exists a'. split; [ right; exact Ha' | exact Hf ].
Qed.

Section Loop.

Context {R : Runtime}.

(** What a successful loop did: the iteration ended without an exception,
    every line was decoded to text and passed the test of the filter
    without raising, and the records are those of the kept lines, in their
    order. *)
Lemma read_records_Ok (record_types : option (list scalar))
    (raw : list raw_line) (failure : option exn) (table : list record) :
  read_records record_types raw failure = Ok table ->
  failure = None
  /\ exists lines,
       mapM decode_line raw = Ok lines
       /\ Forall (fun line => exists b, selects record_types line = Ok b) lines
       /\ mapM read_atcf_line (filter (kept record_types) lines) = Ok table.
Proof.
  revert table. induction raw as [ | l raw IH ]; cbn [read_records]; intros table H.
  - destruct failure; [ discriminate H | ]. injection H as <-.
    split; [ reflexivity | ]. exists []. repeat split. constructor.
  - bind_as H as line Eline. bind_as H as selected Eselected.
    destruct selected.
    + bind_as H as r Er. bind_as H as rs Ers. injection H as <-.
      destruct (IH rs eq_refl) as (Hf & lines & Hlines & Hsel & Htable).
      split; [ exact Hf | ]. exists (line :: lines).
      cbn [mapM filter]. rewrite Eline, Hlines. cbn [bind].
      unfold kept at 1. rewrite Eselected. cbn [mapM].
      rewrite Er, Htable. repeat split.
      constructor; [ exists true; exact Eselected | exact Hsel ].
    + destruct (IH table H) as (Hf & lines & Hlines & Hsel & Htable).
      split; [ exact Hf | ]. exists (line :: lines).
      cbn [mapM filter]. rewrite Eline, Hlines. cbn [bind].
      unfold kept at 1. rewrite Eselected. repeat split.
      * constructor; [ exists false; exact Eselected | exact Hsel ].
      * exact Htable.
Qed.

(** The lines before a point are all dealt with before the line at it. *)
Lemma read_records_app (record_types : option (list scalar))
    (before rest : list raw_line) (failure : option exn) :
  read_records record_types (before ++ rest)%list failure
  = (records <- read_records record_types before None ;;
     more <- read_records record_types rest failure ;;
     Ok (records ++ more)%list).
Proof.
  induction before as [ | l before IH ]; cbn [read_records app bind].
  - destruct (read_records record_types rest failure); reflexivity.
  - destruct (decode_line l) as [ line | ]; cbn [bind]; [ | reflexivity ].
    destruct (selects record_types line) as [ [ | ] | ]; cbn [bind];
      [ | exact IH | reflexivity ].
    destruct (read_atcf_line line) as [ r | ]; cbn [bind]; [ | reflexivity ].
    rewrite IH.
    destruct (read_records record_types before None); cbn [bind]; [ | reflexivity ].
    destruct (read_records record_types rest failure); reflexivity.
Qed.

(** The type of a record is the fifth field of the split line, stripped
    and without its backslash-n sequences. *)
Lemma record_type_of_line (line : string) (r : record) :
  read_atcf_line line = Ok r ->
  exists tag,
    Py.item (Py.split "," line) 4 = Ok tag
    /\ record_type r = Py.remove_backslash_n (Py.strip tag).
Proof.
  intros Hr.
  destruct (read_atcf_line_Ok line r Hr) as (_ & _ & H4 & _).
  apply item_nth_error in H4. unfold fields in H4.
  rewrite map_map in H4.
  destruct (nth_error (Py.split "," line) 4) as [ tag | ] eqn:Etag.
  - rewrite (map_nth_error _ _ _ Etag) in H4. injection H4 as H4.
    exists tag. split; [ apply item_nth_error; exact Etag | symmetry; exact H4 ].
  - apply nth_error_None in Etag.
    assert (Hsome : nth_error
              (map (fun x => Py.remove_backslash_n (Py.strip x)) (Py.split "," line)) 4
              <> None) by (rewrite H4; discriminate).
    apply nth_error_Some in Hsome. rewrite length_map in Hsome. lia.
Qed.

(** The conversion to [str] of a set of strings is the set, when
    [convert_value] returns a string as it is. *)
Lemma mapM_strings (supplied : list scalar) :
  convert_value_keeps_strings R -> all_strings supplied ->
  mapM (fun record_type => convert_value record_type TStr) supplied
  = Ok supplied.
Proof.
  intros Hkeeps. induction supplied as [ | v supplied IH ]; intros Hstrings;
    cbn [mapM]; [ reflexivity | ].
  destruct (Hstrings v (or_introl eq_refl)) as (s & ->).
  rewrite Hkeeps. cbn [bind].
  rewrite IH by (intros w Hw; apply Hstrings; right; exact Hw).
  reflexivity.
Qed.

End Loop.

(** ** The filter *)

(** C7, as stated, fails: with the filter set of the one tag written with
    the backslash and the n, both lines pass the filter, and the records
    have the type BEST, which is not in the set. *)
Lemma record_type_outside_the_filter_set :
  exists table r,
    @read_atcf Reference.runtime (PathLike escaped_text) (Some [VStr "BE\nST"])
    = Ok table
    /\ In r table
    /\ existsb (str_equals (record_type r)) [VStr "BE\nST"] = false.
Proof.
  eexists. eexists. split; [ vm_compute; reflexivity | ].
  split; [ left; reflexivity | vm_compute; reflexivity ].
Qed.

(** C7, amended.  The table of a successful [read_atcf] holds the records of
    the kept lines, in their order, and of no other line.  With a filter
    set, each member of the set supplied is converted to [str], which leaves
    a set of strings as it is; a line is kept when the fifth field of the
    line split on commas, stripped, is in the converted set, compared as
    strings are; the type of its record is that field without its
    backslash-n sequences, so it is in the converted set whenever the field
    has none.  A line whose field is not in the converted set is not kept.
    So, of a set of strings supplied: every record comes from a line whose
    field is in the set supplied, its type is in the set supplied whenever
    the field has no backslash-n sequence, and no line whose field is
    outside the set supplied is kept.  Without a filter set every line is
    kept and decoded as it is. *)
Theorem table_holds_the_records_of_the_kept_lines (R : Runtime)
    (atcf : source) (record_types : option (list scalar)) (table : list record) :
  read_atcf atcf record_types = Ok table ->
  exists types raw lines,
    convert_record_types record_types = Ok types
    /\ lines_of atcf = Ok (raw, None)
    /\ mapM decode_line raw = Ok lines
    /\ mapM read_atcf_line (filter (kept types) lines) = Ok table
    /\ (forall tags, types = Some tags ->
          Forall
            (fun r =>
               exists line tag,
                 In line lines
                 /\ Py.item (Py.split "," line) 4 = Ok tag
                 /\ existsb (str_equals (Py.strip tag)) tags = true
                 /\ read_atcf_line line = Ok r
                 /\ record_type r = Py.remove_backslash_n (Py.strip tag)
                 /\ (Py.remove_backslash_n (Py.strip tag) = Py.strip tag ->
                     existsb (str_equals (record_type r)) tags = true))
            table
          /\ (forall line tag,
                Py.item (Py.split "," line) 4 = Ok tag ->
                existsb (str_equals (Py.strip tag)) tags = false ->
                kept types line = false))
    /\ (types = None -> mapM read_atcf_line lines = Ok table)
    /\ (forall supplied, record_types = Some supplied ->
          (exists tags,
             types = Some tags
             /\ mapM (fun record_type => convert_value record_type TStr) supplied
                = Ok tags)
          /\ (convert_value_keeps_strings R -> all_strings supplied ->
              types = Some supplied
              /\ Forall
                   (fun r =>
                      exists line tag,
                        In line lines
                        /\ Py.item (Py.split "," line) 4 = Ok tag
                        /\ existsb (str_equals (Py.strip tag)) supplied = true
                        /\ read_atcf_line line = Ok r
                        /\ record_type r = Py.remove_backslash_n (Py.strip tag)
                        /\ (Py.remove_backslash_n (Py.strip tag) = Py.strip tag ->
                            existsb (str_equals (record_type r)) supplied = true))
                   table
              /\ (forall line tag,
                    Py.item (Py.split "," line) 4 = Ok tag ->
                    existsb (str_equals (Py.strip tag)) supplied = false ->
                    kept (Some supplied) line = false)))
    /\ (record_types = None -> types = None).
Proof.
  unfold read_atcf. intros H.
  bind_as H as types Etypes.
  bind_as H as [raw failure] Eraw.
  bind_as H as records Erecords.
  destruct (List.length records =? 0)%nat; [ discriminate H | ].
  injection H as <-.
  destruct (read_records_Ok types raw failure records Erecords)
    as (-> & lines & Hlines & Hsel & Htable).
  assert (Hfilter :
            forall tags, types = Some tags ->
              Forall
                (fun r =>
                   exists line tag,
                     In line lines
                     /\ Py.item (Py.split "," line) 4 = Ok tag
                     /\ existsb (str_equals (Py.strip tag)) tags = true
                     /\ read_atcf_line line = Ok r
                     /\ record_type r = Py.remove_backslash_n (Py.strip tag)
                     /\ (Py.remove_backslash_n (Py.strip tag) = Py.strip tag ->
                         existsb (str_equals (record_type r)) tags = true))
                records
              /\ (forall line tag,
                    Py.item (Py.split "," line) 4 = Ok tag ->
                    existsb (str_equals (Py.strip tag)) tags = false ->
                    kept types line = false)).
  { intros tags ->. split.
    + apply Forall_forall. intros r Hr.
      destruct (mapM_In _ _ _ Htable r Hr) as (line & Hline & Hdecoded).
      apply filter_In in Hline as [Hline Hkept].
      destruct (record_type_of_line line r Hdecoded) as (tag & Etag & Etype).
      exists line, tag.
      unfold kept, selects in Hkept. rewrite Etag in Hkept. cbn [bind] in Hkept.
      assert (Hin : existsb (str_equals (Py.strip tag)) tags = true)
        by (destruct (existsb (str_equals (Py.strip tag)) tags);
            [ reflexivity | discriminate Hkept ]).
      repeat split; try assumption.
      intros Hplain. rewrite Etype, Hplain. exact Hin.
    + intros line tag Etag Hout.
      unfold kept, selects. rewrite Etag. cbn [bind]. rewrite Hout. reflexivity. }
  exists types, raw, lines.
  split; [ reflexivity | ]. split; [ reflexivity | ].
  split; [ exact Hlines | ]. split; [ exact Htable | ].
  split; [ exact Hfilter | ]. split; [ | split ].
  - intros ->.
    assert (Hall : filter (kept None) lines = lines).
    { clear. induction lines as [ | l lines IH ]; [ reflexivity | ].
      cbn [filter]. unfold kept at 1. cbn [selects]. rewrite IH. reflexivity. }
    rewrite Hall in Htable. exact Htable.
  - intros supplied ->. cbn [convert_record_types] in Etypes.
    bind_as Etypes as tags Etags. injection Etypes as <-.
    split; [ exists tags; split; [ reflexivity | first [ exact Etags | reflexivity ] ] | ].
    intros Hkeeps Hstrings.
    assert (Hsame : tags = supplied).
    { rewrite (mapM_strings _ Hkeeps Hstrings) in Etags.
      injection Etags as <-. reflexivity. }
    subst tags. split; [ reflexivity | exact (Hfilter supplied eq_refl) ].
  - intros ->. cbn [convert_record_types] in Etypes.
    injection Etypes as <-. reflexivity.
Qed.

(** The theorem at two lines of the example and the filter set of BEST:
    the records are those of the two lines, and their type is in the set
    supplied. *)
Lemma table_holds_the_records_of_the_kept_lines_witness :
  exists table,
    @read_atcf Reference.runtime (PathLike example_text) (Some [VStr "BEST"])
    = Ok table
    /\ @mapM _ _ (@read_atcf_line Reference.runtime)
         (filter (@kept Reference.runtime (Some [VStr "BEST"]))
            [example_line; example_line])
       = Ok table
    /\ Forall
         (fun r => existsb (str_equals (record_type r)) [VStr "BEST"] = true)
         table.
Proof.
  eexists. split.
  - vm_compute. reflexivity.
  - destruct (table_holds_the_records_of_the_kept_lines Reference.runtime
                (PathLike example_text) (Some [VStr "BEST"]) _ eq_refl)
      as (types & raw & lines & Etypes & Eraw & Elines & Etable & _ & _
          & Hsupplied & _).
    destruct (Hsupplied _ eq_refl) as (_ & Hstrings).
    destruct (Hstrings reference_convert_value_keeps_strings)
      as (-> & Hdrawn & _).
    { intros v [<- | []]. eexists. reflexivity. }
    vm_compute in Eraw. injection Eraw as <-.
    vm_compute in Elines. injection Elines as <-.
    split; [ exact Etable | ].
    refine (Forall_impl _ _ Hdrawn).
    intros r (line & tag & Hin & Htag & _ & _ & _ & Hplain).
    apply Hplain.
    destruct Hin as [<- | [<- | []]];
      vm_compute in Htag; injection Htag as <-; vm_compute; reflexivity.
Defined.

(** ** A path that is not found *)

(** C8, as stated, fails: the empty text is not the path of a file and
    splits into no line at all, which is not more than one; the failure to
    find the file is not raised again, the loop runs over no line and
    [read_atcf] ends with the error of an empty table. *)
Lemma empty_text_runs_the_loop :
  @open_readlines Reference.runtime EmptyString = Err FileNotFoundError
  /\ Py.splitlines EmptyString = []
  /\ @lines_of Reference.runtime (PathLike EmptyString) = Ok ([], None)
  /\ @read_atcf Reference.runtime (PathLike EmptyString) None
     = Err (ValueError no_records_found).
Proof. repeat split. Qed.

(** C8, amended.  When the path is not found, its text is split into lines.
    If that gives exactly one line, the failure to find the file is raised
    again.  If it gives more than one line, or none, which the empty text
    does, the loop runs over these lines; over no line it ends with the
    error of an empty table. *)
Theorem missing_path_is_read_as_content (R : Runtime) (text : string)
    (record_types types : option (list scalar)) :
  open_readlines text = Err FileNotFoundError ->
  convert_record_types record_types = Ok types ->
  let inline := Py.splitlines text in
  (List.length inline = 1%nat ->
     lines_of (PathLike text) = Err FileNotFoundError
     /\ read_atcf (PathLike text) record_types = Err FileNotFoundError)
  /\ (List.length inline <> 1%nat ->
        lines_of (PathLike text) = Ok (map text_line inline, None)
        /\ read_atcf (PathLike text) record_types
           = (records <- read_records types (map text_line inline) None ;;
              if (List.length records =? 0)%nat
              then Err (ValueError no_records_found)
              else Ok records))
  /\ (inline = [] ->
        read_atcf (PathLike text) record_types
        = Err (ValueError no_records_found)).
Proof.
  intros Hopen Htypes inline.
  assert (Hone : List.length inline = 1%nat ->
                 lines_of (PathLike text) = Err FileNotFoundError).
  { intros H. cbn [lines_of]. rewrite Hopen. fold inline.
    rewrite H. reflexivity. }
  assert (Hmore : List.length inline <> 1%nat ->
                  lines_of (PathLike text) = Ok (map text_line inline, None)).
  { intros H. cbn [lines_of]. rewrite Hopen. fold inline.
    apply Nat.eqb_neq in H. rewrite H. reflexivity. }
  split; [ | split ].
  - intros H. split; [ exact (Hone H) | ].
    unfold read_atcf. rewrite Htypes, (Hone H). reflexivity.
  - intros H. split; [ exact (Hmore H) | ].
    unfold read_atcf. rewrite Htypes, (Hmore H). reflexivity.
  - intros H. unfold read_atcf. rewrite Htypes, Hmore by (rewrite H; discriminate).
    rewrite H. reflexivity.
Qed.

(** The theorem at a text of two lines, and at a text of one. *)
Lemma missing_path_is_read_as_content_witness :
  @open_readlines Reference.runtime example_text = Err FileNotFoundError
  /\ @lines_of Reference.runtime (PathLike example_text)
     = Ok (map text_line (Py.splitlines example_text), None)
  /\ @lines_of Reference.runtime (PathLike example_line) = Err FileNotFoundError.
Proof.
  split; [ reflexivity | ]. split.
  - refine (proj1 (proj1 (proj2 (missing_path_is_read_as_content
                                   Reference.runtime example_text None None
                                   eq_refl eq_refl)) _)).
    vm_compute. discriminate.
  - refine (proj1 (proj1 (missing_path_is_read_as_content
                            Reference.runtime example_line None None
                            eq_refl eq_refl) _)).
    vm_compute. reflexivity.
Defined.

(** ** A line of fewer than five fields under a filter *)

(** C10, as stated, fails: the text has a blank line, of one field, and
    [read_atcf] with a filter set fails with the [ValueError] that [int]
    raises on the hours of the line before, not with an [IndexError]. *)
Lemma blank_line_after_a_line_that_fails :
  @lines_of Reference.runtime (PathLike text_with_bad_hours_then_blank)
  = Ok ([text_line "AL, 09, 2005082912, , BEST, zz"; text_line EmptyString], None)
  /\ List.length (Py.split "," EmptyString) = 1%nat
  /\ @read_atcf Reference.runtime (PathLike text_with_bad_hours_then_blank)
       (Some [VStr "BEST"])
     = Err (ValueError (invalid_value "invalid literal for int() with base 10")).
Proof. repeat split; vm_compute; reflexivity. Qed.

(** C10, amended.  With a filter set, the test of the filter raises
    [IndexError] on a line of fewer than five fields split on commas, so an
    input with such a line gives no table; and when the lines before it are
    each either left out by the filter or decoded, [read_atcf] fails with
    that [IndexError]. *)
Theorem short_line_fails_the_filter (R : Runtime) (atcf : source)
    (record_types tags : list scalar) (before after : list raw_line)
    (line : raw_line) (short : string) (failure : option exn) :
  convert_record_types (Some record_types) = Ok (Some tags) ->
  lines_of atcf = Ok ((before ++ line :: after)%list, failure) ->
  decode_line line = Ok short ->
  (List.length (Py.split "," short) < 5)%nat ->
  selects (Some tags) short = Err IndexError
  /\ (forall table, read_atcf atcf (Some record_types) <> Ok table)
  /\ (forall records,
        read_records (Some tags) before None = Ok records ->
        read_atcf atcf (Some record_types) = Err IndexError).
Proof.
  intros Htags Hlines Hline Hshort.
  assert (Hsel : selects (Some tags) short = Err IndexError).
  { cbn [selects]. rewrite item_IndexError by lia. reflexivity. }
  assert (Hloop : read_atcf atcf (Some record_types)
                  = (records <- read_records (Some tags) before None ;;
                     Err IndexError)).
  { unfold read_atcf. rewrite Htags, Hlines. cbn [bind].
    rewrite read_records_app. cbn [read_records].
    rewrite Hline. cbn [bind]. rewrite Hsel. cbn [bind].
    destruct (read_records (Some tags) before None); reflexivity. }
  split; [ exact Hsel | ]. split.
  - intros table. rewrite Hloop.
    destruct (read_records (Some tags) before None); discriminate.
  - intros records Hbefore. rewrite Hloop, Hbefore. reflexivity.
Qed.

(** The theorem at a line of the example followed by a blank line. *)
Lemma short_line_fails_the_filter_witness :
  List.length (Py.split "," EmptyString) = 1%nat
  /\ @read_atcf Reference.runtime (PathLike text_with_blank_line)
       (Some [VStr "BEST"])
     = Err IndexError.
Proof.
  split; [ reflexivity | ].
  refine (proj2 (proj2 (short_line_fails_the_filter Reference.runtime
                          (PathLike text_with_blank_line)
                          [VStr "BEST"] [VStr "BEST"]
                          [text_line example_line] []
                          (text_line EmptyString) EmptyString None
                          _ _ _ _)) _ _);
    first [ vm_compute; reflexivity | vm_compute; lia ].
Defined.

(** * Further properties of the decoder *)

(** ** White space at the end of a line *)

Lemma rstrip_by_app (p : ascii -> bool) (s w : string) :
  all_chars p w = true ->
  Py.rstrip_by p (s ++ w) = Py.rstrip_by p s.
Proof.
  intros Hw. induction s as [ | c s IH ]; cbn [append Py.rstrip_by].
  - induction w as [ | d w IHw ]; [ reflexivity | ].
    cbn [all_chars] in Hw. apply andb_prop in Hw as [Hd Hw].
    cbn [Py.rstrip_by]. rewrite (IHw Hw), Hd. reflexivity.
  - rewrite IH. reflexivity.
Qed.

Lemma lstrip_by_all (p : ascii -> bool) (w : string) :
  all_chars p w = true -> Py.lstrip_by p w = EmptyString.
Proof.
  induction w as [ | d w IH ]; cbn [all_chars Py.lstrip_by]; intros H;
    [ reflexivity | ].
  apply andb_prop in H as [Hd Hw]. rewrite Hd. exact (IH Hw).
Qed.

Lemma strip_by_app (p : ascii -> bool) (s w : string) :
  all_chars p w = true ->
  Py.strip_by p (s ++ w) = Py.strip_by p s.
Proof.
  intros Hw. unfold Py.strip_by.
  induction s as [ | c s IH ]; cbn [append Py.lstrip_by].
  - rewrite (lstrip_by_all p w Hw). reflexivity.
  - destruct (p c); [ exact IH | ].
    exact (rstrip_by_app p (String c s) w Hw).
Qed.

(** Appending characters that are not the separator extends the last
    piece. *)
Lemma split_app (sep : ascii) (s w : string) :
  all_chars (fun c => negb (Ascii.eqb c sep)) w = true ->
  exists init last,
    Py.split sep s = (init ++ [last])%list
    /\ Py.split sep (s ++ w) = (init ++ [(last ++ w)%string])%list.
Proof.
  intros Hw. induction s as [ | c s IH ].
  - exists [], EmptyString. split; [ reflexivity | ].
    cbn [append app]. induction w as [ | d w IHw ]; [ reflexivity | ].
    cbn [all_chars] in Hw. apply andb_prop in Hw as [Hd Hw].
    cbn [Py.split]. apply negb_true_iff in Hd. rewrite Hd, (IHw Hw).
    reflexivity.
  - destruct IH as (init & last & Hs & Hsw).
    cbn [append Py.split]. destruct (Ascii.eqb c sep).
    + exists (EmptyString :: init), last. rewrite Hs, Hsw. split; reflexivity.
    + rewrite Hs, Hsw. destruct init as [ | x init ].
      * exists [], (String c last). split; reflexivity.
      * exists (String c x :: init), last. split; reflexivity.
Qed.

Lemma space_is_no_comma (w : string) :
  all_chars Py.is_space w = true ->
  all_chars (fun c => negb (Ascii.eqb c ",")) w = true.
Proof.
  induction w as [ | d w IH ]; cbn [all_chars]; intros H; [ reflexivity | ].
  apply andb_prop in H as [Hd Hw]. rewrite (IH Hw), andb_true_r.
  destruct (Ascii.eqb_spec d ",") as [-> | ]; [ discriminate Hd | reflexivity ].
Qed.

(** The stripped pieces of a line do not see white space after it. *)
Lemma stripped_pieces_app (line w : string) :
  all_chars Py.is_space w = true ->
  map Py.strip (Py.split "," (line ++ w)) = map Py.strip (Py.split "," line).
Proof.
  intros Hw.
  destruct (split_app "," line w (space_is_no_comma w Hw))
    as (init & last & Hs & Hsw).
  rewrite Hs, Hsw, !map_app. cbn [map]. unfold Py.strip.
  rewrite (strip_by_app Py.is_space last w Hw). reflexivity.
Qed.

Lemma item_map {A B} (g : A -> B) (l : list A) (i : nat) :
  Py.item (map g l) i = (x <- Py.item l i ;; Ok (g x)).
Proof.
  unfold Py.item. rewrite nth_error_map.
  destruct (nth_error l i); reflexivity.
Qed.

Section TrailingSpace.

Context {R : Runtime}.

Lemma fields_app (line w : string) :
  all_chars Py.is_space w = true -> fields (line ++ w) = fields line.
Proof.
  intros Hw. unfold fields. rewrite (stripped_pieces_app line w Hw). reflexivity.
Qed.

Lemma selects_app (record_types : option (list scalar)) (line w : string) :
  all_chars Py.is_space w = true ->
  selects record_types (line ++ w) = selects record_types line.
Proof.
  intros Hw. destruct record_types as [ types | ]; [ | reflexivity ].
  cbn [selects].
  assert (H : forall l,
             (tag <- Py.item l 4 ;; Ok (existsb (str_equals (Py.strip tag)) types))
             = (tag <- Py.item (map Py.strip l) 4 ;;
                Ok (existsb (str_equals tag) types))).
  { intros l. rewrite item_map. destruct (Py.item l 4); reflexivity. }
  rewrite !H, (stripped_pieces_app line w Hw). reflexivity.
Qed.

End TrailingSpace.

(** X1.  White space after a line, such as the line feed that [readlines]
    and the iteration over bytes leave at its end, changes neither the
    record of the line nor the verdict of the filter on it. *)
Theorem white_space_after_a_line_is_ignored (R : Runtime)
    (record_types : option (list scalar)) (line w : string) :
  all_chars Py.is_space w = true ->
  read_atcf_line (line ++ w) = read_atcf_line line
  /\ selects record_types (line ++ w) = selects record_types line.
Proof.
  intros Hw. split.
  - unfold read_atcf_line. rewrite (fields_app line w Hw). reflexivity.
  - exact (selects_app record_types line w Hw).
Qed.

(** The theorem at the line of the example followed by a line feed. *)
Lemma white_space_after_a_line_is_ignored_witness :
  all_chars Py.is_space LF = true
  /\ @read_atcf_line Reference.runtime (example_line ++ LF)
     = @read_atcf_line Reference.runtime example_line.
Proof.
  split; [ reflexivity | ].
  exact (proj1 (white_space_after_a_line_is_ignored Reference.runtime None
                  example_line LF eq_refl)).
Defined.

(** ** Bytes and text *)

Lemma BytesIO_lines_splitlines (content : string) :
  all_chars breaks_at_line_feed_only content = true ->
  Forall2 same_but_for_the_end (BytesIO_lines content) (Py.splitlines content).
Proof.
  unfold Py.splitlines.
  induction content as [ | c s IH ]; cbn [all_chars]; intros H.
  - constructor.
  - apply andb_prop in H as [Hc Hs]. specialize (IH Hs).
    cbn [BytesIO_lines Py.splitlines_from andb].
    unfold breaks_at_line_feed_only in Hc.
    destruct (Py.code c =? 10)%N eqn:Hlf.
    + assert (H13 : (Py.code c =? 13)%N = false)
        by (apply N.eqb_eq in Hlf; rewrite Hlf; reflexivity).
      assert (Hbreak : Py.is_line_break c = true)
        by (unfold Py.is_line_break; rewrite Hlf; reflexivity).
      rewrite H13, Hbreak. constructor; [ | exact IH ].
      exists (String c EmptyString). split; [ | reflexivity ].
      cbn [all_chars]. rewrite andb_true_r. unfold Py.is_space.
      apply N.eqb_eq in Hlf. rewrite Hlf. reflexivity.
    + cbn [orb] in Hc. apply negb_true_iff, orb_false_elim in Hc as [H13 Hbreak].
      rewrite H13, Hbreak.
      destruct IH as [ | b t bs ts (w & Hw & ->) Hrest ].
      * constructor; [ | constructor ].
        exists EmptyString. split; reflexivity.
      * constructor; [ | exact Hrest ].
        exists w. split; [ exact Hw | reflexivity ].
Qed.

Section BytesAndText.

Context {R : Runtime}.

Lemma read_records_same_but_for_the_end (record_types : option (list scalar))
    (bs ts : list string) :
  Forall2 same_but_for_the_end bs ts ->
  (forall b, In b bs -> decode b = Ok b) ->
  read_records record_types (map bytes_line bs) None
  = read_records record_types (map text_line ts) None.
Proof.
  induction 1 as [ | b t bs ts (w & Hw & ->) Hrest IH ]; intros Hdecode;
    [ reflexivity | ].
  cbn [map read_records decode_line].
  rewrite (Hdecode _ (or_introl eq_refl)). cbn [bind].
  rewrite (selects_app record_types t w Hw).
  unfold read_atcf_line. rewrite (fields_app t w Hw).
  rewrite IH by (intros b Hb; apply Hdecode; right; exact Hb).
  reflexivity.
Qed.

End BytesAndText.

(** X2.  A text of two lines or more, broken at line feeds only, gives the
    same result whether [read_atcf] gets it as the content of an
    [io.BytesIO] or as a string on which [open] raises
    [FileNotFoundError], provided the content does not begin with the magic
    number of gzip and its lines decode from UTF-8 to themselves, as lines
    of ASCII do.  That [open] raises [FileNotFoundError] is a hypothesis:
    it raises another error on a text that names no file either but is not
    accepted as a name, such as one of more than 255 bytes. *)
Theorem bytes_and_inline_text_agree (R : Runtime) (content : string)
    (record_types : option (list scalar)) :
  open_readlines content = Err FileNotFoundError ->
  all_chars breaks_at_line_feed_only content = true ->
  gzip_magic content = false ->
  (2 <= List.length (Py.splitlines content))%nat ->
  (forall b, In b (BytesIO_lines content) -> decode b = Ok b) ->
  read_atcf (BytesIO content) record_types
  = read_atcf (PathLike content) record_types.
Proof.
  intros Hopen Hplain Hmagic Htwo Hdecode.
  unfold read_atcf.
  destruct (convert_record_types record_types) as [ types | ]; [ | reflexivity ].
  cbn [bind lines_of]. rewrite Hmagic, Hopen.
  assert (Hlen : (String.length content =? 0)%nat = false).
  { destruct content; [ cbn in Htwo; lia | reflexivity ]. }
  assert (Hone : (List.length (Py.splitlines content) =? 1)%nat = false)
    by (apply Nat.eqb_neq; lia).
  rewrite Hlen, Hone. cbn [bind].
  rewrite (read_records_same_but_for_the_end types _ _
             (BytesIO_lines_splitlines content Hplain) Hdecode).
  reflexivity.
Qed.

(** The theorem at two lines of the example. *)
Lemma bytes_and_inline_text_agree_witness :
  (2 <= List.length (Py.splitlines example_text))%nat
  /\ @read_atcf Reference.runtime (BytesIO example_text) (Some [VStr "BEST"])
     = @read_atcf Reference.runtime (PathLike example_text) (Some [VStr "BEST"]).
Proof.
  split; [ vm_compute; lia | ].
  refine (bytes_and_inline_text_agree Reference.runtime example_text
            (Some [VStr "BEST"]) eq_refl _ _ _ _).
  - vm_compute. reflexivity.
  - vm_compute. reflexivity.
  - vm_compute. lia.
  - intros b Hb. vm_compute in Hb.
    destruct Hb as [ <- | [ <- | [] ] ]; vm_compute; reflexivity.
Defined.

(** ** The table *)

Lemma mapM_length {A B} (f : A -> result B) (l : list A) (bs : list B) :
  mapM f l = Ok bs -> List.length bs = List.length l.
Proof.
  revert bs. induction l as [ | x l IH ]; cbn [mapM]; intros bs H.
  - injection H as <-. reflexivity.
  - bind_as H as y Ey. bind_as H as ys Eys. injection H as <-.
    cbn [List.length]. rewrite (IH ys eq_refl). reflexivity.
Qed.

Section Table.

Context {R : Runtime}.

Lemma kept_without_filter (lines : list string) :
  filter (kept None) lines = lines.
Proof.
  induction lines as [ | l lines IH ]; [ reflexivity | ].
  cbn [filter]. unfold kept at 1. cbn [selects]. rewrite IH. reflexivity.
Qed.

(** A loop over lines that the filter leaves out, each without raising,
    gives no record. *)
Lemma read_records_none_selected (types : option (list scalar))
    (raw : list raw_line) (lines : list string) :
  mapM decode_line raw = Ok lines ->
  Forall (fun line => selects types line = Ok false) lines ->
  read_records types raw None = Ok [].
Proof.
  revert lines. induction raw as [ | l raw IH ]; cbn [mapM read_records];
    intros lines Hlines Hnone; [ reflexivity | ].
  bind_as Hlines as line Eline. bind_as Hlines as rest Erest.
  injection Hlines as <-. inversion Hnone as [ | ? ? Hline Hrest ]; subst.
  cbn [bind]. rewrite Hline. cbn [bind]. exact (IH rest eq_refl Hrest).
Qed.

End Table.

(** X3.  A table that [read_atcf] returns is never empty and has no more
    records than the input has lines; without a filter set it has one
    record for each line. *)
Theorem table_is_never_empty (R : Runtime) (atcf : source)
    (record_types : option (list scalar)) (table : list record) :
  read_atcf atcf record_types = Ok table ->
  table <> []
  /\ exists raw,
       lines_of atcf = Ok (raw, None)
       /\ (List.length table <= List.length raw)%nat
       /\ (record_types = None -> List.length table = List.length raw).
Proof.
  unfold read_atcf. intros H.
  bind_as H as types Etypes.
  bind_as H as [raw failure] Eraw.
  bind_as H as records Erecords.
  destruct records as [ | r records ]; [ discriminate H | ].
  injection H as <-. split; [ discriminate | ].
  destruct (read_records_Ok types raw failure _ Erecords)
    as (-> & lines & Hlines & _ & Htable).
  exists raw. split; [ reflexivity | ].
  apply mapM_length in Hlines, Htable. split.
  - rewrite Htable, <- Hlines. apply filter_length_le.
  - intros ->. cbn in Etypes. injection Etypes as <-.
    rewrite kept_without_filter in Htable. congruence.
Qed.

(** The theorem at two lines of the example. *)
Lemma table_is_never_empty_witness :
  exists table,
    @read_atcf Reference.runtime (PathLike example_text) None = Ok table
    /\ table <> [].
Proof.
  eexists. split.
  - vm_compute. reflexivity.
  - exact (proj1 (table_is_never_empty Reference.runtime (PathLike example_text)
                    None _ eq_refl)).
Defined.

(** X4.  When the filter leaves out every line of the input, an input of no
    line included, [read_atcf] raises the [ValueError] of no record found:
    it returns no empty table. *)
Theorem filter_that_selects_nothing_finds_no_record (R : Runtime)
    (atcf : source) (record_types types : option (list scalar))
    (raw : list raw_line) (lines : list string) :
  convert_record_types record_types = Ok types ->
  lines_of atcf = Ok (raw, None) ->
  mapM decode_line raw = Ok lines ->
  Forall (fun line => selects types line = Ok false) lines ->
  read_atcf atcf record_types = Err (ValueError no_records_found).
Proof.
  intros Htypes Hraw Hlines Hnone. unfold read_atcf.
  rewrite Htypes, Hraw. cbn [bind].
  rewrite (read_records_none_selected types raw lines Hlines Hnone).
  reflexivity.
Qed.

(** The theorem at two lines of type BEST and the filter set of OFCL. *)
Lemma filter_that_selects_nothing_finds_no_record_witness :
  @read_atcf Reference.runtime (PathLike example_text) (Some [VStr "OFCL"])
  = Err (ValueError no_records_found).
Proof.
  refine (filter_that_selects_nothing_finds_no_record Reference.runtime
            (PathLike example_text) (Some [VStr "OFCL"]) (Some [VStr "OFCL"])
            [text_line example_line; text_line example_line]
            [example_line; example_line] _ _ _ _).
  - reflexivity.
  - vm_compute. reflexivity.
  - reflexivity.
  - repeat constructor.
Defined.

(** X5.  The first line that fails decides: when the lines before it are
    each left out or decoded, and a line passes the filter and its decoding
    raises, [read_atcf] raises that same exception, whatever comes after
    the line. *)
Theorem first_line_that_fails_decides (R : Runtime) (atcf : source)
    (record_types types : option (list scalar))
    (before after : list raw_line) (l : raw_line) (line : string)
    (failure : option exn) (records : list record) (e : exn) :
  convert_record_types record_types = Ok types ->
  lines_of atcf = Ok ((before ++ l :: after)%list, failure) ->
  read_records types before None = Ok records ->
  decode_line l = Ok line ->
  selects types line = Ok true ->
  read_atcf_line line = Err e ->
  read_atcf atcf record_types = Err e.
Proof.
  intros Htypes Hraw Hbefore Hl Hsel Hline. unfold read_atcf.
  rewrite Htypes, Hraw. cbn [bind].
  rewrite read_records_app, Hbefore. cbn [bind read_records].
  rewrite Hl. cbn [bind]. rewrite Hsel. cbn [bind].
  rewrite Hline. reflexivity.
Qed.

(** The theorem at the example, then the example with letters for the
    isotach, then the example. *)
Lemma first_line_that_fails_decides_witness :
  @read_atcf Reference.runtime
    (PathLike (example_line ++ LF ++ line_with_isotach_abc ++ LF ++ example_line))
    None
  = Err no_radial_wind.
Proof.
  refine (first_line_that_fails_decides Reference.runtime _ None None
            [text_line example_line] [text_line example_line]
            (text_line line_with_isotach_abc) line_with_isotach_abc
            None _ no_radial_wind _ _ _ _ _ _);
    vm_compute; reflexivity.
Defined.

(** ** The fields of a line that decodes *)

Section Cells.

Context {R : Runtime}.

(** A cell read as a nullable integer: the empty string of a blank field,
    or what [convert_value] makes of the field. *)
Lemma int_cell_Ok (f : list string) (i : nat) (v : scalar) :
  int_cell f i = Ok v ->
  exists s,
    Py.item f i = Ok s
    /\ (s = EmptyString -> v = VStr EmptyString)
    /\ (s <> EmptyString -> convert_value (VStr s) TInt = Ok v).
Proof.
  unfold int_cell. intros H. bind_as H as s Es.
  exists s. split; [ reflexivity | ].
  destruct s as [ | c s ].
  - injection H as <-. split; [ reflexivity | congruence ].
  - split; [ discriminate | intros _; exact H ].
Qed.

End Cells.

(** X6.  A line that decodes has 17 or 18 fields, or 20 to 23, or 27 or
    more: with fewer than 17, with 19 and with 24 to 26 fields some index
    is out of range. *)
Theorem field_counts_that_decode (R : Runtime) (line : string) (r : record) :
  read_atcf_line line = Ok r ->
  let n := List.length (fields line) in
  (n = 17 \/ n = 18 \/ (20 <= n <= 23) \/ 27 <= n)%nat.
Proof.
  intros Hr n.
  destruct (lines_that_give_no_record line r Hr) as [H19 H24].
  destruct (read_atcf_line_Ok line r Hr)
    as (_ & _ & _ & _ & _ & _ & _ & _ & _ & _ & _ & _ & _ & _ & H16 & _).
  apply int_cell_within in H16. fold n in H16, H19, H24. lia.
Qed.

(** The theorem at the line of the example, of 17 fields. *)
Lemma field_counts_that_decode_witness :
  exists r,
    @read_atcf_line Reference.runtime example_line = Ok r
    /\ let n := List.length (fields example_line) in
       (n = 17 \/ n = 18 \/ (20 <= n <= 23) \/ 27 <= n)%nat.
Proof.
  eexists. split.
  - vm_compute. reflexivity.
  - exact (field_counts_that_decode Reference.runtime example_line _ eq_refl).
Defined.

Section Hemisphere.

Context {R : Runtime}.

Lemma decode_latitude_Ok (lat : string) (y : float) :
  decode_latitude lat = Ok y ->
  (Py.contains "N" lat = true
   /\ exists x, float_of_str (Py.strip_char "N" lat) = Ok x
                /\ y = (x * 0.1)%float)
  \/ (Py.contains "N" lat = false /\ Py.contains "S" lat = true
      /\ exists x, float_of_str (Py.strip_char "S" lat) = Ok x
                   /\ y = (x * -1 * 0.1)%float).
Proof.
  unfold decode_latitude. intros H.
  destruct (Py.contains "N" lat).
  - left. split; [ reflexivity | ].
    bind_as H as x Ex. injection H as <-. exists x. split; reflexivity.
  - right. split; [ reflexivity | ].
    destruct (Py.contains "S" lat); [ | discriminate H ].
    split; [ reflexivity | ].
    bind_as H as x Ex. injection H as <-. exists x. split; reflexivity.
Qed.

End Hemisphere.

(** X7.  The latitude field of a line that decodes holds an N or an S:
    without one of them the line gives no record, while a longitude without
    E and W is kept as text.  When it holds an N, the N decides: the letters
    N at both ends are removed, the rest is read by [float] and the latitude
    is a tenth of it, whether an S is there or not.  Otherwise the letters S
    at both ends are removed and the latitude is the number times minus one,
    times a tenth. *)
Theorem latitude_needs_N_or_S (R : Runtime) (line : string) (r : record)
    (lat : string) :
  read_atcf_line line = Ok r ->
  Py.item (fields line) 6 = Ok lat ->
  (Py.contains "N" lat = true
   /\ exists x, float_of_str (Py.strip_char "N" lat) = Ok x
                /\ latitude r = (x * 0.1)%float)
  \/ (Py.contains "N" lat = false /\ Py.contains "S" lat = true
      /\ exists x, float_of_str (Py.strip_char "S" lat) = Ok x
                   /\ latitude r = (x * -1 * 0.1)%float).
Proof.
  intros Hr Hlat.
  destruct (read_atcf_line_Ok line r Hr)
    as (_ & _ & _ & _ & (s6 & E6 & L6) & _).
  rewrite Hlat in E6. injection E6 as <-.
  exact (decode_latitude_Ok lat (latitude r) L6).
Qed.

(** The theorem at the line of the example, with 241N. *)
Lemma latitude_needs_N_or_S_witness :
  exists r,
    @read_atcf_line Reference.runtime example_line = Ok r
    /\ (Py.contains "N" "241N" = true \/ Py.contains "S" "241N" = true).
Proof.
  eexists. split.
  - vm_compute. reflexivity.
  - destruct (latitude_needs_N_or_S Reference.runtime example_line _ "241N"
                eq_refl eq_refl) as [ (H & _) | (_ & H & _) ];
      [ left | right ]; exact H.
Defined.

(** X8.  A field read as a nullable integer that is blank on the line
    stays the empty string in the record: it becomes neither [None] nor the
    not-a-number that marks the fields a short line does not have.  A field
    that is not blank is what [convert_value] returns for it.  So it is for
    the wind speed, the pressure and the four radii. *)
Theorem blank_integer_fields_stay_empty (R : Runtime) (line : string)
    (r : record) (i : nat) (cell : scalar) :
  read_atcf_line line = Ok r ->
  In (i, cell)
     [(8%nat, max_sustained_wind_speed r); (9%nat, central_pressure r);
      (13%nat, radius_for_NEQ r); (14%nat, radius_for_SEQ r);
      (15%nat, radius_for_SWQ r); (16%nat, radius_for_NWQ r)] ->
  exists s,
    Py.item (fields line) i = Ok s
    /\ (s = EmptyString -> cell = VStr EmptyString /\ isna cell = false)
    /\ (s <> EmptyString -> convert_value (VStr s) TInt = Ok cell).
Proof.
  intros Hr Hin.
  destruct (read_atcf_line_Ok line r Hr)
    as (_ & _ & _ & _ & _ & _ & H8 & H9 & _ & _ & _ & H13 & H14 & H15 & H16 & _).
  assert (Hcell : int_cell (fields line) i = Ok cell).
  { cbn [In] in Hin.
    repeat (destruct Hin as [ Hin | Hin ];
            [ injection Hin as <- <-; assumption | ]).
    destruct Hin. }
  destruct (int_cell_Ok _ _ _ Hcell) as (s & Hs & Hblank & Hother).
  exists s. split; [ exact Hs | ]. split; [ | exact Hother ].
  intros Hempty. rewrite (Hblank Hempty). split; reflexivity.
Qed.

(** The example with a blank field for the pressure. *)
Lemma blank_integer_fields_stay_empty_witness :
  exists r,
    @read_atcf_line Reference.runtime
      "AL, 09, 2005082912, , BEST, 0, 241N, 0800W, 65, , TS, 34, NEQ, 120, 90, 60, 90"
    = Ok r
    /\ central_pressure r = VStr EmptyString.
Proof.
  eexists. split.
  - vm_compute. reflexivity.
  - destruct (blank_integer_fields_stay_empty Reference.runtime
                "AL, 09, 2005082912, , BEST, 0, 241N, 0800W, 65, , TS, 34, NEQ, 120, 90, 60, 90"
                _ 9%nat _ eq_refl (or_intror (or_introl eq_refl)))
      as (s & Hs & Hblank & _).
    vm_compute in Hs. injection Hs as <-. exact (proj1 (Hblank eq_refl)).
Defined.

(** * Properties of the addresses *)

(** ** Sorting *)

Lemma insert_descending_Permutation (x : string) (l : list string) :
  Permutation (PyStr.insert_descending x l) (x :: l).
Proof.
  induction l as [ | y l IH ]; cbn [PyStr.insert_descending].
  - apply Permutation_refl.
  - destruct (String.leb y x); [ apply Permutation_refl | ].
    apply perm_trans with (y :: x :: l);
      [ apply perm_skip, IH | apply perm_swap ].
Qed.

Lemma sorted_reverse_Permutation (l : list string) :
  Permutation (PyStr.sorted_reverse l) l.
Proof.
  induction l as [ | x l IH ]; cbn [PyStr.sorted_reverse fold_right].
  - apply Permutation_refl.
  - apply perm_trans with (x :: PyStr.sorted_reverse l);
      [ apply insert_descending_Permutation | apply perm_skip, IH ].
Qed.

Lemma insert_descending_Sorted (x : string) (l : list string) :
  Sorted not_less l -> Sorted not_less (PyStr.insert_descending x l).
Proof.
  induction 1 as [ | y l Hl IH Hy ]; cbn [PyStr.insert_descending].
  - repeat constructor.
  - destruct (String.leb y x) eqn:Hyx.
    + constructor; [ constructor; assumption | constructor; exact Hyx ].
    + constructor; [ exact IH | ].
      assert (Hxy : not_less y x).
      { unfold not_less. destruct (String.leb_total x y) as [ H | H ];
          [ exact H | congruence ]. }
      destruct Hy as [ | z l Hz ]; cbn [PyStr.insert_descending].
      * constructor. exact Hxy.
      * destruct (String.leb z x); constructor; assumption.
Qed.

Lemma sorted_reverse_Sorted (l : list string) :
  Sorted not_less (PyStr.sorted_reverse l).
Proof.
  induction l as [ | x l IH ]; cbn [PyStr.sorted_reverse fold_right].
  - constructor.
  - apply insert_descending_Sorted, IH.
Qed.

(** ** The address of a deck *)

Lemma append_assoc (x y z : string) :
  ((x ++ y) ++ z = x ++ (y ++ z))%string.
Proof.
  induction x as [ | c x IH ]; cbn [append]; [ reflexivity | ].
  rewrite IH. reflexivity.
Qed.

Lemma append_empty (x : string) : (x ++ EmptyString)%string = x.
Proof.
  induction x as [ | c x IH ]; cbn [append]; [ reflexivity | ].
  rewrite IH. reflexivity.
Qed.

Section Address.

Context {S : Services}.

Lemma host_and_path_of_the_server (tail : string) :
  host_and_path (server_root ++ tail)
  = Ok ("ftp.nhc.noaa.gov", "atcf/" ++ PyStr.remove_all "ftp://" tail).
Proof. reflexivity. Qed.

(** What an address that [atcf_url] returns is made of. *)
Lemma atcf_url_Ok (file_deck : argument ATCF_FileDeck.t)
    (storm_id : option string) (mode : argument ATCF_Mode.t) (url : string) :
  atcf_url file_deck storm_id mode = Ok url ->
  exists nhc_dir d suffix,
    url = server_root ++ nhc_dir ++ "/"
          ++ match storm_id with
             | Some id => ATCF_FileDeck.value d ++ PyStr.lower id ++ suffix
             | None => EmptyString
             end
    /\ ((nhc_dir = "aid_public" /\ d = ATCF_FileDeck.a /\ suffix = ".dat.gz")
        \/ (nhc_dir = "btk" /\ d = ATCF_FileDeck.b /\ suffix = ".dat")
        \/ ((exists year, nhc_dir = "archive/" ++ PyStr.format_int year)
            /\ suffix = ".dat.gz"))
    /\ (forall e, file_deck = member e -> d = e).
Proof.
  unfold atcf_url. intros H.
  bind_as H as year Eyear.
  bind_as H as mode' Emode.
  bind_as H as deck Edeck.
  bind_as H as mode'' Emode''.
  bind_as H as [nhc_dir suffix] Edir.
  set (d := match deck with Some d => d | None => ATCF_FileDeck.a end) in *.
  exists nhc_dir, d, suffix.
  assert (Hurl : url = server_root ++ nhc_dir ++ "/"
                       ++ match storm_id with
                          | Some id => ATCF_FileDeck.value d ++ PyStr.lower id ++ suffix
                          | None => EmptyString
                          end).
  { unfold server_root. destruct storm_id; injection H as <-.
    - rewrite !append_assoc. reflexivity.
    - rewrite append_empty. reflexivity. }
  split; [ exact Hurl | ]. split.
  - destruct mode'' as [ [ | ] | ]; [ | | discriminate Edir ].
    + injection Edir as <- <-. right. right. split; [ exists year | ]; reflexivity.
    + destruct d; [ | | discriminate Edir ]; injection Edir as <- <-.
      * left. repeat split.
      * right. left. repeat split.
  - intros e ->. injection Edeck as <-. reflexivity.
Qed.

End Address.

(** X9.  Every address that [atcf_url] returns is on the server
    ftp.nhc.noaa.gov under atcf/, whatever the arguments and the catalog:
    in the directory aid_public, btk or archive/ and the year; and when a
    storm is named, the file is the letter of the deck, the name of the
    storm in lower case, and .dat.gz, or .dat in btk, where the deck is b.
    A deck given as a member of the enumeration is the deck of the
    address. *)
Theorem atcf_url_is_on_the_server (S : Services)
    (file_deck : argument ATCF_FileDeck.t) (storm_id : option string)
    (mode : argument ATCF_Mode.t) (url : string) :
  atcf_url file_deck storm_id mode = Ok url ->
  (exists nhc_dir d suffix,
     url = server_root ++ nhc_dir ++ "/"
           ++ match storm_id with
              | Some id => ATCF_FileDeck.value d ++ PyStr.lower id ++ suffix
              | None => EmptyString
              end
     /\ ((nhc_dir = "aid_public" /\ d = ATCF_FileDeck.a /\ suffix = ".dat.gz")
         \/ (nhc_dir = "btk" /\ d = ATCF_FileDeck.b /\ suffix = ".dat")
         \/ ((exists year, nhc_dir = "archive/" ++ PyStr.format_int year)
             /\ suffix = ".dat.gz"))
     /\ (forall e, file_deck = member e -> d = e))
  /\ exists path,
       host_and_path url = Ok ("ftp.nhc.noaa.gov", path)
       /\ PyStr.starts_with "atcf/" path = true.
Proof.
  intros H. pose proof (atcf_url_Ok _ _ _ _ H) as Hshape.
  split; [ exact Hshape | ].
  destruct Hshape as (nhc_dir & d & suffix & -> & _).
  eexists. split; [ apply host_and_path_of_the_server | reflexivity ].
Qed.

(** The theorem at the best track of the ninth storm of 2005. *)
Lemma atcf_url_is_on_the_server_witness :
  @atcf_url Sample.services (member ATCF_FileDeck.b) (Some "AL092005")
    (member ATCF_Mode.realtime)
  = Ok "ftp://ftp.nhc.noaa.gov/atcf/btk/bal092005.dat"
  /\ exists path,
       @host_and_path "ftp://ftp.nhc.noaa.gov/atcf/btk/bal092005.dat"
       = Ok ("ftp.nhc.noaa.gov", path)
       /\ PyStr.starts_with "atcf/" path = true.
Proof.
  split; [ reflexivity | ].
  exact (proj2 (atcf_url_is_on_the_server Sample.services
                  (member ATCF_FileDeck.b) (Some "AL092005")
                  (member ATCF_Mode.realtime) _ eq_refl)).
Defined.

(** X10.  A file that [get_atcf_file] returns holds the bytes that the
    retrieval from the host ftp.nhc.noaa.gov wrote for a path under atcf/.
    When that retrieval raises [socket.gaierror], the error is a
    [ConnectionError]; another exception of the retrieval is raised as it
    is.  What the function returns or raises does not depend on what a
    retrieval from another host would answer. *)
Theorem get_atcf_file_asks_the_server (S : Services) (storm_id : string)
    (file_deck : argument ATCF_FileDeck.t) (mode : argument ATCF_Mode.t) :
  (forall atcf,
     get_atcf_file storm_id file_deck mode = Ok atcf ->
     exists path content,
       PyStr.starts_with "atcf/" path = true
       /\ FTP_retrbinary "ftp.nhc.noaa.gov" path = Ok content
       /\ atcf = BytesIO content)
  /\ (forall url path,
        atcf_url file_deck (Some storm_id) mode = Ok url ->
        host_and_path url = Ok ("ftp.nhc.noaa.gov", path) ->
        FTP_retrbinary "ftp.nhc.noaa.gov" path = Err gaierror ->
        get_atcf_file storm_id file_deck mode = Err ConnectionError)
  /\ (forall url path e,
        atcf_url file_deck (Some storm_id) mode = Ok url ->
        host_and_path url = Ok ("ftp.nhc.noaa.gov", path) ->
        FTP_retrbinary "ftp.nhc.noaa.gov" path = Err e ->
        e <> gaierror ->
        get_atcf_file storm_id file_deck mode = Err e)
  /\ (forall retrbinary,
        (forall path,
           retrbinary "ftp.nhc.noaa.gov" path
           = FTP_retrbinary "ftp.nhc.noaa.gov" path) ->
        @get_atcf_file (with_retrbinary S retrbinary) storm_id file_deck mode
        = get_atcf_file storm_id file_deck mode).
Proof.
  split; [ | split; [ | split ] ].
  - unfold get_atcf_file. intros atcf H.
    bind_as H as url Eurl.
    destruct (atcf_url_Ok _ _ _ _ Eurl) as (nhc_dir & d & suffix & -> & _).
    rewrite host_and_path_of_the_server in H. cbn [bind] in H.
    match type of H with
    | context [FTP_retrbinary _ ?p] => exists p
    end.
    destruct (FTP_retrbinary _ _) as [ content | e ] eqn:Econtent.
    + exists content. injection H as <-.
      split; [ reflexivity | split; reflexivity ].
    + exfalso. destruct e as [ | | | | | name | ]; try discriminate H.
      destruct (String.eqb_spec name "gaierror") as [ -> | Hname ];
        [ discriminate H | ].
      revert H. clear -Hname.
      repeat (destruct name as [ | [ [ | ] [ | ] [ | ] [ | ] [ | ] [ | ] [ | ] [ | ] ] name ];
              try discriminate; try congruence).
  - intros url path Hurl Hpath Hgai. unfold get_atcf_file.
    rewrite Hurl. cbn [bind]. rewrite Hpath. cbn [bind].
    rewrite Hgai. reflexivity.
  - intros url path e Hurl Hpath He Hother. unfold get_atcf_file.
    rewrite Hurl. cbn [bind]. rewrite Hpath. cbn [bind].
    rewrite He. destruct e as [ | | | | | name | ]; try reflexivity.
    destruct (String.eqb_spec name "gaierror") as [ -> | Hname ];
      [ contradiction Hother; reflexivity | ].
    revert Hname. clear.
    repeat (destruct name as [ | [ [ | ] [ | ] [ | ] [ | ] [ | ] [ | ] [ | ] [ | ] ] name ];
            try reflexivity; try congruence).
  - intros retrbinary Hsame.
    assert (Hurl : @atcf_url (with_retrbinary S retrbinary) file_deck
                     (Some storm_id) mode
                   = atcf_url file_deck (Some storm_id) mode)
      by (destruct S; reflexivity).
    unfold get_atcf_file. rewrite Hurl.
    destruct (atcf_url file_deck (Some storm_id) mode) as [ url | e ] eqn:Eurl;
      [ | reflexivity ].
    destruct (atcf_url_Ok _ _ _ _ Eurl) as (nhc_dir & d & suffix & -> & _).
    cbn [bind]. rewrite host_and_path_of_the_server. cbn [bind].
    change (@FTP_retrbinary (with_retrbinary S retrbinary)) with retrbinary.
    rewrite Hsame. reflexivity.
Qed.

(** The theorem at the best track of the ninth storm of 2005, with the
    sample and with a server that other hosts answer differently. *)
Lemma get_atcf_file_asks_the_server_witness :
  @get_atcf_file Sample.services "AL092005" (member ATCF_FileDeck.b)
    (member ATCF_Mode.realtime)
  = Ok (BytesIO example_text)
  /\ (exists path content,
        PyStr.starts_with "atcf/" path = true
        /\ Sample.FTP_retrbinary "ftp.nhc.noaa.gov" path = Ok content
        /\ BytesIO example_text = BytesIO content)
  /\ @get_atcf_file
       (with_retrbinary Sample.services
          (fun host path =>
             if String.eqb host "ftp.nhc.noaa.gov"
             then Sample.FTP_retrbinary host path
             else Ok EmptyString))
       "AL092005" (member ATCF_FileDeck.b) (member ATCF_Mode.realtime)
     = Ok (BytesIO example_text).
Proof.
  destruct (get_atcf_file_asks_the_server Sample.services "AL092005"
              (member ATCF_FileDeck.b) (member ATCF_Mode.realtime))
    as (Hbytes & _ & _ & Hsame).
  split; [ reflexivity | ].
  split; [ exact (Hbytes (BytesIO example_text) eq_refl) | ].
  rewrite Hsame; [ reflexivity | ].
  intros path. reflexivity.
Defined.

(** ** The list of the storms *)

Lemma mapM_In_Ok {A B} (f : A -> result B) (l : list A) (bs : list B) :
  mapM f l = Ok bs -> forall x, In x l -> exists y, In y bs /\ f x = Ok y.
Proof.
  revert bs. induction l as [ | x0 l IH ]; cbn [mapM]; intros bs H x Hx.
  - destruct Hx.
  - bind_as H as y0 Ey0. bind_as H as ys Eys. injection H as <-.
    destruct Hx as [ <- | Hx ].
    + exists y0. split; [ left; reflexivity | exact Ey0 ].
    + destruct (IH ys eq_refl x Hx) as (y & Hy & Hf).
      exists y. split; [ right; exact Hy | exact Hf ].
Qed.

(** The members of what is kept of the results of a test that may raise:
    [map fst (filter snd out)], where [out] pairs each member of [l] with
    the verdict on it. *)
Lemma kept_of_mapM {A B} (test : A -> result bool) (name : A -> B)
    (l : list A) (out : list (B * bool)) :
  mapM (fun x => verdict <- test x ;; Ok (name x, verdict)) l = Ok out ->
  forall y, In y (map fst (filter snd out))
            <-> exists x, In x l /\ test x = Ok true /\ y = name x.
Proof.
  intros Hout y. split.
  - intros Hy. apply in_map_iff in Hy as ([y' verdict] & <- & Hin).
    apply filter_In in Hin as [Hin Hv]. cbn [snd] in Hv. subst verdict.
    destruct (mapM_In _ _ _ Hout _ Hin) as (x & Hx & Hfx).
    bind_as Hfx as v Ev. injection Hfx as <- <-.
    exists x. repeat split; assumption.
  - intros (x & Hx & Htest & ->).
    destruct (mapM_In_Ok _ _ _ Hout x Hx) as (out1 & Hout1 & Hfx).
    rewrite Htest in Hfx. cbn [bind] in Hfx. injection Hfx as <-.
    apply in_map_iff. exists (name x, true). split; [ reflexivity | ].
    apply filter_In. split; [ exact Hout1 | reflexivity ].
Qed.

Lemma first_character_is_the_deck (d : ATCF_FileDeck.t) (filename : string) :
  (first <- Py.item (list_ascii_of_string filename) 0 ;;
   Ok (String.eqb (String first EmptyString) (ATCF_FileDeck.value d)))
  = Ok true
  <-> PyStr.starts_with (ATCF_FileDeck.value d) filename = true.
Proof.
  destruct filename as [ | c rest ]; cbn [list_ascii_of_string Py.item nth_error bind].
  - destruct d; split; discriminate.
  - destruct d; cbn [ATCF_FileDeck.value PyStr.starts_with String.eqb];
      rewrite andb_true_r; rewrite Ascii.eqb_sym;
      destruct (Ascii.eqb _ c); split; congruence.
Qed.

(** X11.  [atcf_storm_ids] called with no mode, as it is by default, lists
    nothing: for a deck that is not given or is a member of the enumeration
    it raises the [TypeError] of a subscript of [None], before the catalog
    and the server are asked; for any other deck it returns no list
    either. *)
Theorem storm_ids_need_a_mode (S : Services)
    (file_deck : argument ATCF_FileDeck.t) :
  (forall ids, atcf_storm_ids file_deck (other VNone) <> Ok ids)
  /\ atcf_storm_ids (other VNone) (other VNone) = Err TypeError
  /\ (forall d, atcf_storm_ids (member d) (other VNone) = Err TypeError).
Proof.
  split; [ | split; [ reflexivity | intros d; reflexivity ] ].
  intros ids H. unfold atcf_storm_ids in H.
  bind_as H as deck Edeck. bind_as H as url Eurl.
  unfold atcf_url in Eurl. cbn [bind] in Eurl. discriminate Eurl.
Qed.

(** X12.  The storms that [atcf_storm_ids] returns, for a deck that is a
    member of the enumeration or is not given, which is the deck a, are in
    descending order, and they are the names up to the first dot of the
    entries that the server ftp.nhc.noaa.gov lists in a directory under
    atcf/ with the type file and a name that begins with the letter of the
    deck: each of these and no other. *)
Theorem storm_ids_are_the_files_of_the_deck (S : Services)
    (file_deck : argument ATCF_FileDeck.t) (d : ATCF_FileDeck.t)
    (mode : argument ATCF_Mode.t) (ids : list string) :
  file_deck = member d \/ (file_deck = other VNone /\ d = ATCF_FileDeck.a) ->
  atcf_storm_ids file_deck mode = Ok ids ->
  Sorted not_less ids
  /\ exists directory listing,
       PyStr.starts_with "atcf/" directory = true
       /\ FTP_mlsd "ftp.nhc.noaa.gov" directory = Ok listing
       /\ forall id,
            In id ids
            <-> exists filename facts,
                  In (filename, facts) listing
                  /\ PyStr.getitem facts "type" = Ok "file"
                  /\ PyStr.starts_with (ATCF_FileDeck.value d) filename = true
                  /\ id = stem filename.
Proof.
  intros Hdeck H. unfold atcf_storm_ids in H.
  bind_as H as deck Edeck.
  assert (deck = Some d) as ->.
  { destruct Hdeck as [ -> | [ -> -> ] ]; injection Edeck as <-; reflexivity. }
  bind_as H as url Eurl.
  destruct (atcf_url_Ok _ _ _ _ Eurl) as (nhc_dir & d' & suffix & -> & _).
  rewrite host_and_path_of_the_server in H. cbn [bind] in H.
  bind_as H as listing Elisting.
  bind_as H as typed Etyped.
  bind_as H as selected Eselected.
  bind_as Eselected as verdicts Everdicts.
  injection Eselected as <-. injection H as <-.
  split; [ apply sorted_reverse_Sorted | ].
  eexists. exists listing.
  split; [ | split; [ exact Elisting | ] ]; [ reflexivity | ].
  intros id.
  pose proof (kept_of_mapM
                (fun entry : string * list (string * string) =>
                   type <- PyStr.getitem (snd entry) "type" ;;
                   Ok (String.eqb type "file"))
                fst listing typed) as Htyped.
  pose proof (kept_of_mapM
                (fun filename =>
                   first <- Py.item (list_ascii_of_string filename) 0 ;;
                   Ok (String.eqb (String first EmptyString)
                         (ATCF_FileDeck.value d)))
                (fun filename => filename)
                (map fst (filter snd typed)) verdicts) as Hverdicts.
  assert (Etyped' :
            mapM (fun entry : string * list (string * string) =>
                    verdict <- (type <- PyStr.getitem (snd entry) "type" ;;
                                Ok (String.eqb type "file")) ;;
                    Ok (fst entry, verdict)) listing = Ok typed).
  { rewrite <- Etyped. clear. induction listing as [ | [filename facts] l IH ];
      [ reflexivity | ].
    cbn [mapM fst snd]. rewrite IH.
    destruct (PyStr.getitem facts "type"); reflexivity. }
  assert (Everdicts' :
            mapM (fun filename =>
                    verdict <- (first <- Py.item (list_ascii_of_string filename) 0 ;;
                                Ok (String.eqb (String first EmptyString)
                                      (ATCF_FileDeck.value d))) ;;
                    Ok (filename, verdict))
                 (map fst (filter snd typed)) = Ok verdicts).
  { rewrite <- Everdicts. clear.
    induction (map fst (filter snd typed)) as [ | filename l IH ];
      [ reflexivity | ].
    cbn [mapM]. rewrite IH.
    destruct (Py.item (list_ascii_of_string filename) 0); reflexivity. }
  specialize (Htyped Etyped'). specialize (Hverdicts Everdicts').
  split.
  - intros Hid.
    apply (Permutation_in _ (sorted_reverse_Permutation _)) in Hid.
    apply in_map_iff in Hid as (filename & <- & Hfilename).
    apply Hverdicts in Hfilename as (filename' & Hin & Hfirst & ->).
    apply Htyped in Hin as ([filename facts] & Hentry & Htype & ->).
    exists filename, facts. cbn [fst snd] in *.
    split; [ exact Hentry | ]. split.
    + destruct (PyStr.getitem facts "type") as [ type | ]; [ | discriminate Htype ].
      cbn [bind] in Htype. injection Htype as Htype.
      apply String.eqb_eq in Htype. rewrite Htype. reflexivity.
    + split; [ apply first_character_is_the_deck; exact Hfirst | reflexivity ].
  - intros (filename & facts & Hentry & Htype & Hfirst & ->).
    apply (Permutation_in _ (Permutation_sym (sorted_reverse_Permutation _))).
    apply in_map_iff. exists filename. split; [ reflexivity | ].
    apply Hverdicts. exists filename. split; [ | split; [ | reflexivity ] ].
    + apply Htyped. exists (filename, facts).
      split; [ exact Hentry | ]. cbn [fst snd]. rewrite Htype.
      split; reflexivity.
    + apply first_character_is_the_deck. exact Hfirst.
Qed.

(** The theorem at the directory of the best tracks. *)
Lemma storm_ids_are_the_files_of_the_deck_witness :
  @atcf_storm_ids Sample.services (member ATCF_FileDeck.b)
    (member ATCF_Mode.realtime)
  = Ok ["bep092005"; "bal122005"; "bal092005"]
  /\ Sorted not_less ["bep092005"; "bal122005"; "bal092005"].
Proof.
  split; [ vm_compute; reflexivity | ].
  exact (proj1 (storm_ids_are_the_files_of_the_deck Sample.services
                  (member ATCF_FileDeck.b) ATCF_FileDeck.b
                  (member ATCF_Mode.realtime) _ (or_introl eq_refl) eq_refl)).
Defined.

(** ** The catalog *)

Lemma filter_filter {A} (p q : A -> bool) (l : list A) :
  filter q (filter p l) = filter (fun x => p x && q x) l.
Proof.
  induction l as [ | x l IH ]; [ reflexivity | ].
  cbn [filter]. destruct (p x); cbn [filter andb]; rewrite IH; reflexivity.
Qed.

Lemma filter_first {A} (p : A -> bool) (l : list A) (x : A) (rest : list A) :
  filter p l = x :: rest ->
  exists before after,
    l = (before ++ x :: after)%list
    /\ p x = true
    /\ Forall (fun y => p y = false) before.
Proof.
  induction l as [ | y l IH ]; cbn [filter]; intros H; [ discriminate H | ].
  destruct (p y) eqn:Hy.
  - injection H as -> _. exists [], l. repeat split; [ exact Hy | constructor ].
  - destruct (IH H) as (before & after & -> & Hx & Hbefore).
    exists (y :: before), after. repeat split; [ exact Hx | ].
    constructor; assumption.
Qed.

Lemma filter_none {A} (p : A -> bool) (l : list A) :
  Forall (fun y => p y = false) l -> filter p l = [].
Proof.
  induction 1 as [ | y l Hy _ IH ]; [ reflexivity | ].
  cbn [filter]. rewrite Hy. exact IH.
Qed.

Section Catalog.

Context {S : Services}.

(** The storms that are left when the three criteria have been applied, for
    searches that compile. *)
Lemma get_atcf_entry_filters (year : option Z) (basin : option string)
    (storm_number : option Z) (storm_name : option string)
    (storms : list Storm.t) (found_basin found_name : option (string -> bool)) :
  nhc_storms year = Ok storms ->
  search_for basin found_basin ->
  search_for storm_name found_name ->
  is_None storm_name && (is_None basin && is_None storm_number) = false ->
  get_atcf_entry year basin storm_number storm_name
  = match filter (wanted found_basin storm_number found_name) storms with
    | storm :: _ => Ok storm
    | [] =>
        Err (ValueError
               (invalid_value
                  (("no storms with given info"
                    ++ match storm_name with
                       | Some storm_name =>
                           " (" ++ quote ++ storm_name ++ quote ++ ")"
                       | None =>
                           " (" ++ quote ++ PyStr.format_str basin
                           ++ PyStr.format_int storm_number ++ quote ++ ")"
                       end)
                   ++ " found in " ++ PyStr.format_int year)))
    end.
Proof.
  intros Hstorms Hbasin Hname Hgiven. unfold get_atcf_entry.
  rewrite Hstorms. cbn [bind]. rewrite Hgiven.
  assert (Hfilter :
            forall l : list Storm.t,
              filter (wanted found_basin storm_number found_name) l
              = filter (fun s => match found_name with
                                 | Some found => found (Storm.name s)
                                 | None => true
                                 end)
                  (filter (fun s => match storm_number with
                                    | Some n => Storm.number s =? n
                                    | None => true
                                    end)
                     (filter (fun s => match found_basin with
                                       | Some found => found (Storm.basin s)
                                       | None => true
                                       end) l))).
  { intros l. rewrite !filter_filter. apply filter_ext. intros x.
    unfold wanted. rewrite andb_assoc. reflexivity. }
  assert (Hall : forall l : list Storm.t, filter (fun _ => true) l = l).
  { induction l as [ | x l IH ]; [ reflexivity | ]. cbn [filter]. rewrite IH.
    reflexivity. }
  rewrite Hfilter.
  destruct basin as [ basin | ], found_basin as [ fb | ]; try contradiction;
    destruct storm_name as [ storm_name | ], found_name as [ fn | ];
    try contradiction; cbn [search_for] in Hbasin, Hname;
    try rewrite Hbasin; try rewrite Hname; cbn [bind];
    destruct storm_number; cbn [bind]; rewrite ?Hall; reflexivity.
Qed.

End Catalog.

(** X13.  The storm that [get_atcf_entry] returns is the first row of the
    table of [nhc_storms] that meets every criterion that is given: the
    basin and the name, put in upper case, are found in the row by
    [str.contains], and the number is the number of the row.  At least one
    of the three criteria is given.  And the first row that meets the
    criteria is returned whenever one of them at least is given and the
    searches compile; a basin alone is enough. *)
Theorem get_atcf_entry_returns_the_first_match (S : Services)
    (year : option Z) (basin : option string) (storm_number : option Z)
    (storm_name : option string) (storm : Storm.t) :
  (get_atcf_entry year basin storm_number storm_name = Ok storm ->
   (basin <> None \/ storm_number <> None \/ storm_name <> None)
   /\ exists storms before after found_basin found_name,
        nhc_storms year = Ok storms
        /\ search_for basin found_basin
        /\ search_for storm_name found_name
        /\ storms = (before ++ storm :: after)%list
        /\ wanted found_basin storm_number found_name storm = true
        /\ Forall
             (fun s => wanted found_basin storm_number found_name s = false)
             before)
  /\ (forall before after found_basin found_name,
        nhc_storms year = Ok (before ++ storm :: after)%list ->
        search_for basin found_basin ->
        search_for storm_name found_name ->
        (basin <> None \/ storm_number <> None \/ storm_name <> None) ->
        wanted found_basin storm_number found_name storm = true ->
        Forall (fun s => wanted found_basin storm_number found_name s = false)
          before ->
        get_atcf_entry year basin storm_number storm_name = Ok storm)
  /\ (forall text before after found,
        nhc_storms year = Ok (before ++ storm :: after)%list ->
        str_contains (upper text) = Ok found ->
        found (Storm.basin storm) = true ->
        Forall (fun s => found (Storm.basin s) = false) before ->
        get_atcf_entry year (Some text) None None = Ok storm).
Proof.
  assert (Hfirst :
            forall basin storm_number storm_name before after
                   found_basin found_name,
              nhc_storms year = Ok (before ++ storm :: after)%list ->
              search_for basin found_basin ->
              search_for storm_name found_name ->
              (basin <> None \/ storm_number <> None \/ storm_name <> None) ->
              wanted found_basin storm_number found_name storm = true ->
              Forall
                (fun s => wanted found_basin storm_number found_name s = false)
                before ->
              get_atcf_entry year basin storm_number storm_name = Ok storm).
  { clear basin storm_number storm_name.
    intros basin storm_number storm_name before after found_basin found_name
      Hstorms Hbasin Hname Hgiven Hw Hb.
    assert (Hsome : is_None storm_name && (is_None basin && is_None storm_number)
                    = false).
    { destruct storm_name; [ reflexivity | ].
      destruct basin; [ reflexivity | ].
      destruct storm_number; [ reflexivity | ].
      destruct Hgiven as [ H | [ H | H ] ]; contradiction H; reflexivity. }
    rewrite (get_atcf_entry_filters _ _ _ _ _ _ _ Hstorms Hbasin Hname Hsome).
    rewrite filter_app, (filter_none _ _ Hb). cbn [filter app].
    rewrite Hw. reflexivity. }
  split; [ | split ].
  - intros H.
    assert (Hinputs :
              exists storms found_basin found_name,
                nhc_storms year = Ok storms
                /\ search_for basin found_basin
                /\ search_for storm_name found_name
                /\ is_None storm_name && (is_None basin && is_None storm_number)
                   = false).
    { unfold get_atcf_entry in H. bind_as H as storms Estorms.
      destruct (is_None storm_name && (is_None basin && is_None storm_number));
        [ discriminate H | ].
      bind_as H as l1 E1. bind_as H as l2 E2. bind_as H as l3 E3.
      exists storms.
      destruct basin as [ basin | ].
      - bind_as E1 as fb Efb. exists (Some fb).
        destruct storm_name as [ storm_name | ].
        + bind_as E3 as fn Efn. exists (Some fn). repeat split; assumption.
        + exists None. repeat split; assumption.
      - exists None. destruct storm_name as [ storm_name | ].
        + bind_as E3 as fn Efn. exists (Some fn). repeat split; assumption.
        + exists None. repeat split. }
    destruct Hinputs as (storms & found_basin & found_name & Hstorms & Hbasin
                         & Hname & Hgiven).
    split.
    + destruct basin; [ left; discriminate | ].
      destruct storm_number; [ right; left; discriminate | ].
      destruct storm_name; [ right; right; discriminate | discriminate Hgiven ].
    + rewrite (get_atcf_entry_filters _ _ _ _ _ _ _ Hstorms Hbasin Hname Hgiven) in H.
      destruct (filter (wanted found_basin storm_number found_name) storms)
        as [ | first rest ] eqn:Hfilter; [ discriminate H | ].
      injection H as ->.
      destruct (filter_first _ _ _ _ Hfilter) as (before & after & -> & Hw & Hb).
      exists (before ++ storm :: after)%list, before, after, found_basin, found_name.
      repeat split; assumption.
  - exact (Hfirst basin storm_number storm_name).
  - intros text before after found Hstorms Hfound Hw Hb.
    apply (Hfirst (Some text) None None before after (Some found) None Hstorms
             Hfound I).
    + left. discriminate.
    + unfold wanted. rewrite Hw. reflexivity.
    + refine (Forall_impl _ _ Hb). intros s Hs. unfold wanted. rewrite Hs.
      reflexivity.
Qed.

(** The theorem at the sample: the basin and the number of a storm of the
    Atlantic, and the basin of the eastern Pacific alone. *)
Lemma get_atcf_entry_returns_the_first_match_witness :
  (exists storm,
     @get_atcf_entry Sample.services (Some 2005) (Some "al") (Some 12) None
     = Ok storm
     /\ Storm.name storm = "KATRINA"
     /\ (Some "al" <> None \/ Some 12 <> None \/ @None string <> None))
  /\ @get_atcf_entry Sample.services (Some 2005) (Some "ep") None None
     = Ok {| Storm.basin := "EP"; Storm.number := 9; Storm.name := "HILARY";
             Storm.source := "btk" |}.
Proof.
  split.
  - eexists. split; [ vm_compute; reflexivity | ].
    split; [ reflexivity | ].
    exact (proj1 (proj1 (get_atcf_entry_returns_the_first_match Sample.services
                           (Some 2005) (Some "al") (Some 12) None _) eq_refl)).
  - refine (proj2 (proj2 (get_atcf_entry_returns_the_first_match
                            Sample.services (Some 2005) None None None _))
              "ep"
              [ {| Storm.basin := "AL"; Storm.number := 9;
                   Storm.name := "IRENE"; Storm.source := "ARCHIVE" |};
                {| Storm.basin := "AL"; Storm.number := 12;
                   Storm.name := "KATRINA"; Storm.source := "ARCHIVE" |} ]
              [] (Sample.occurs "EP") eq_refl eq_refl eq_refl _).
    repeat constructor.
Defined.

(** X14.  When no row of the table meets the criteria, [get_atcf_entry]
    raises a [ValueError]; and with no criterion at all it raises the
    [ValueError] that asks for one, whatever the table holds. *)
Theorem get_atcf_entry_without_a_match (S : Services)
    (year : option Z) (basin : option string) (storm_number : option Z)
    (storm_name : option string) (storms : list Storm.t)
    (found_basin found_name : option (string -> bool)) :
  nhc_storms year = Ok storms ->
  search_for basin found_basin ->
  search_for storm_name found_name ->
  (Forall (fun s => wanted found_basin storm_number found_name s = false) storms ->
   exists message,
     get_atcf_entry year basin storm_number storm_name
     = Err (ValueError (invalid_value message)))
  /\ get_atcf_entry year None None None
     = Err (ValueError
              (invalid_value
                 "need either storm name + year OR basin + storm number + year")).
Proof.
  intros Hstorms Hbasin Hname. split.
  - intros Hnone.
    destruct (is_None storm_name && (is_None basin && is_None storm_number))
      eqn:Hgiven.
    + eexists. unfold get_atcf_entry. rewrite Hstorms. cbn [bind].
      rewrite Hgiven. reflexivity.
    + rewrite (get_atcf_entry_filters _ _ _ _ _ _ _ Hstorms Hbasin Hname Hgiven).
      rewrite (filter_none _ _ Hnone). eexists. reflexivity.
  - unfold get_atcf_entry. rewrite Hstorms. reflexivity.
Qed.

(** The theorem at the sample, which has no storm of the number 30. *)
Lemma get_atcf_entry_without_a_match_witness :
  exists message,
    @get_atcf_entry Sample.services (Some 2005) (Some "AL") (Some 30) None
    = Err (ValueError (invalid_value message)).
Proof.
  refine (proj1 (get_atcf_entry_without_a_match Sample.services
                   (Some 2005) (Some "AL") (Some 30) None Sample.storms
                   (Some (Sample.occurs "AL")) None eq_refl eq_refl I) _).
  repeat constructor.
Defined.

(** X15.  With no mode given, the address of a storm is the address of the
    mode that the catalog gives: of [historical] when the source of the
    entry found for the basin, the number and the year of the name is
    ARCHIVE, of [realtime] otherwise.  For a deck that is a member of the
    enumeration, and for no deck, which stands for the deck a, that is the
    file of the deck in the archive of the year in the first case, and in
    aid_public or btk in the second, where there is none for the deck f. *)
Theorem atcf_url_takes_the_mode_of_the_catalog (S : Services)
    (file_deck : argument ATCF_FileDeck.t) (storm_id : string)
    (year storm_number : Z) (entry : Storm.t) :
  Py.int (PyStr.slice_from 4 storm_id) = Ok year ->
  Py.int (substring 2 2 storm_id) = Ok storm_number ->
  get_atcf_entry (Some year) (Some (substring 0 2 storm_id))
    (Some storm_number) None = Ok entry ->
  atcf_url file_deck (Some storm_id) (other VNone)
  = atcf_url file_deck (Some storm_id)
      (member (if String.eqb (Storm.source entry) "ARCHIVE"
               then ATCF_Mode.historical else ATCF_Mode.realtime))
  /\ (forall d,
        file_deck = member d
        \/ (file_deck = other VNone /\ to_file_deck VNone = Ok None
            /\ d = ATCF_FileDeck.a) ->
        atcf_url file_deck (Some storm_id) (other VNone)
        = if String.eqb (Storm.source entry) "ARCHIVE"
          then Ok (server_root ++ "archive/" ++ PyStr.format_int (Some year)
                   ++ "/" ++ ATCF_FileDeck.value d ++ PyStr.lower storm_id
                   ++ ".dat.gz")
          else match d with
               | ATCF_FileDeck.a =>
                   Ok (server_root ++ "aid_public/a" ++ PyStr.lower storm_id
                       ++ ".dat.gz")
               | ATCF_FileDeck.b =>
                   Ok (server_root ++ "btk/b" ++ PyStr.lower storm_id ++ ".dat")
               | ATCF_FileDeck.f => Err NotImplementedError
               end).
Proof.
  intros Hyear Hnumber Hentry. split.
  - unfold atcf_url.
    rewrite Hyear. cbn [bind]. rewrite Hnumber. cbn [bind].
    rewrite Hentry. cbn [bind].
    destruct (String.eqb (Storm.source entry) "ARCHIVE"); reflexivity.
  - intros d Hdeck. unfold atcf_url.
    rewrite Hyear. cbn [bind]. rewrite Hnumber. cbn [bind].
    rewrite Hentry. cbn [bind].
    assert (Hd : match file_deck with
                 | member d => Ok (Some d)
                 | other v => or_None (to_file_deck v)
                 end
                 = Ok (match file_deck with
                       | member d => Some d
                       | other _ => None
                       end)
                 /\ d = match file_deck with
                        | member d => d
                        | other _ => ATCF_FileDeck.a
                        end).
    { destruct Hdeck as [ -> | (-> & Hnone & ->) ];
        [ split; reflexivity | ].
      rewrite Hnone. split; reflexivity. }
    destruct Hd as [Hd ->]. rewrite Hd. cbn [bind].
    unfold server_root.
    destruct (String.eqb (Storm.source entry) "ARCHIVE"); cbn [bind].
    + destruct file_deck as [ d | v ]; cbn [bind];
        rewrite !append_assoc; reflexivity.
    + destruct file_deck as [ [ | | ] | v ]; cbn [bind];
        try reflexivity; rewrite ?append_assoc; reflexivity.
Qed.

(** The theorem at the ninth storm of the Atlantic of 2005, which the
    sample has in the archive, with no deck; and at the ninth storm of the
    eastern Pacific, which it has not, with the deck b. *)
Lemma atcf_url_takes_the_mode_of_the_catalog_witness :
  @atcf_url Sample.services (other VNone) (Some "AL092005") (other VNone)
  = Ok "ftp://ftp.nhc.noaa.gov/atcf/archive/2005/aal092005.dat.gz"
  /\ @atcf_url Sample.services (member ATCF_FileDeck.b) (Some "EP092005")
       (other VNone)
     = Ok "ftp://ftp.nhc.noaa.gov/atcf/btk/bep092005.dat".
Proof.
  split.
  - refine (proj2 (atcf_url_takes_the_mode_of_the_catalog Sample.services
                     (other VNone) "AL092005" 2005 9
                     {| Storm.basin := "AL"; Storm.number := 9;
                        Storm.name := "IRENE"; Storm.source := "ARCHIVE" |}
                     _ _ _)
              ATCF_FileDeck.a
              (or_intror (conj eq_refl (conj eq_refl eq_refl))));
      vm_compute; reflexivity.
  - refine (proj2 (atcf_url_takes_the_mode_of_the_catalog Sample.services
                     (member ATCF_FileDeck.b) "EP092005" 2005 9
                     {| Storm.basin := "EP"; Storm.number := 9;
                        Storm.name := "HILARY"; Storm.source := "btk" |}
                     _ _ _)
              ATCF_FileDeck.b (or_introl eq_refl));
      vm_compute; reflexivity.
Defined.
